(** * Multi-chain wallet front-end: transfer dispatcher, balance fetchers
      and aggregation view

    A shallow embedding of [src/utils/wallet.ts], of the three wallet
    connector components and of the aggregation page.  Asynchronous
    functions are embedded as computations in a small trace-and-exception
    monad: a computation yields the list of observable events it performed
    (notifications, console output, SDK and extension calls, React state
    setters) together with either a returned value or a thrown value.  The
    behaviour of the browser extensions and of the chain SDKs during one
    invocation is an explicit parameter (the records of section "The
    environment"), so that every statement quantifies over all the ways the
    outside world may answer or fail. *)

From Stdlib Require Import ZArith String Ascii List Bool Lia Floats DecimalString.
Import ListNotations.

Local Open Scope string_scope.
Local Open Scope Z_scope.

(** ** JavaScript strings and numbers

    A JavaScript string is embedded as a Rocq [string]; a character stands
    for a UTF-16 code unit below 256.  A JavaScript [number] that the code
    computes with is a binary64 [float]; a [bigint] is a [Z]. *)

Module Js.

(** [s.slice(start, end)] with the relative indices of the language:
    a negative index counts from the end, and both are clamped. *)
Definition clampIndex (len i : Z) : Z :=
  if i <? 0 then Z.max (len + i) 0 else Z.min i len.

Definition slice (s : string) (start : Z) (stop : option Z) : string :=
  let len := Z.of_nat (String.length s) in
  let from := clampIndex len start in
  let to := match stop with Some e => clampIndex len e | None => len end in
  substring (Z.to_nat from) (Z.to_nat (to - from)) s.

(** [s.startsWith(p)] *)
Definition startsWith (s p : string) : bool := prefix p s.

(** [s.includes(sub)] *)
Fixpoint includes (s sub : string) : bool :=
  prefix sub s ||
  match s with
  | EmptyString => false
  | String _ r => includes r sub
  end.

(** [s.split(sep)[0]] for a non-empty separator: the part of [s] before
    the first occurrence of [sep], all of [s] when there is none. *)
Fixpoint splitHead (s sep : string) : string :=
  if prefix sep s then EmptyString
  else match s with
       | EmptyString => EmptyString
       | String c r => String c (splitHead r sep)
       end.

(** The regular expression [/<(.+)>/].  [.] matches any character but a
    line terminator, [+] is greedy, and the match starts at the leftmost
    possible [<]. *)
Definition isLineTerminator (c : ascii) : bool :=
  (c =? "010")%char || (c =? "013")%char.

(** The longest prefix that [.*] can consume. *)
Fixpoint dotRun (s : string) : string :=
  match s with
  | EmptyString => EmptyString
  | String c r => if isLineTerminator c then EmptyString else String c (dotRun r)
  end.

(** The part of [run] before its last [>], if it has one. *)
Fixpoint beforeLastGt (run : string) : option string :=
  match run with
  | EmptyString => None
  | String c r =>
      match beforeLastGt r with
      | Some cap => Some (String c cap)
      | None => if (c =? ">")%char then Some EmptyString else None
      end
  end.

(** [s.match(/<(.+)>/)?.[1]]: the captured group of the first match. *)
Fixpoint matchAngle (s : string) : option string :=
  match s with
  | EmptyString => None
  | String c r =>
      if (c =? "<")%char then
        match beforeLastGt (dotRun r) with
        | Some (String a cap) => Some (String a cap)
        | _ => matchAngle r
        end
      else matchAngle r
  end.

(** *** Numbers *)

Definition ofZ (z : Z) : float := SF2Prim (binary_normalize prec emax z 0 false).

(** The correctly rounded value of [m * 10 ^ e10], negated when [neg]. *)
Definition ofDecimal (neg : bool) (m : N) (e10 : Z) : float :=
  match m with
  | N0 => if neg then (-0)%float else 0%float
  | Npos p =>
      if 0 <=? e10 then
        SF2Prim (binary_normalize prec emax
                   ((if neg then Z.neg p else Z.pos p) * 10 ^ e10) 0 false)
      else
        SF2Prim (SFdiv prec emax (S754_finite neg p 0)
                   (S754_finite false (Z.to_pos (10 ^ (- e10))) 0))
  end.

(** [StrWhiteSpaceChar] among the code units below 256. *)
Definition isWhiteSpace (c : ascii) : bool :=
  let n := nat_of_ascii c in
  ((9 <=? n) && (n <=? 13))%nat || (n =? 32)%nat || (n =? 160)%nat.

Fixpoint trimStart (s : string) : string :=
  match s with
  | String c r => if isWhiteSpace c then trimStart r else s
  | EmptyString => EmptyString
  end.

Definition digitValue (c : ascii) : option N :=
  let n := N_of_ascii c in
  if ((48 <=? n) && (n <=? 57))%N then Some (n - 48)%N
  else if ((97 <=? n) && (n <=? 122))%N then Some (n - 87)%N
  else if ((65 <=? n) && (n <=? 90))%N then Some (n - 55)%N
  else None.

(** The longest prefix of digits in the given radix: their value, how
    many there are, and the rest of the string. *)
Fixpoint digits (radix : N) (acc : N) (count : nat) (s : string) : N * nat * string :=
  match s with
  | String c r =>
      match digitValue c with
      | Some d => if (d <? radix)%N then digits radix (acc * radix + d)%N (S count) r
                  else (acc, count, s)
      | None => (acc, count, s)
      end
  | EmptyString => (acc, count, s)
  end.

(** An optional sign: whether it is [-], and the rest. *)
Definition sign (s : string) : bool * string :=
  match s with
  | String "-" r => (true, r)
  | String "+" r => (false, r)
  | _ => (false, s)
  end.

(** [ExponentPart]: the exponent and the rest, or no exponent at all
    when no digit follows the [e]. *)
Definition exponentPart (s : string) : Z * string :=
  match s with
  | String c r =>
      if ((c =? "e") || (c =? "E"))%char then
        let '(neg, r1) := sign r in
        let '(v, n, r2) := digits 10 0 0 r1 in
        match n with
        | O => (0, s)
        | S _ => (if neg then - Z.of_N v else Z.of_N v, r2)
        end
      else (0, s)
  | EmptyString => (0, s)
  end.

(** [parseFloat(input)]: the value of the longest prefix of the trimmed
    input that is a [StrDecimalLiteral], [NaN] when there is none. *)
Definition parseFloat (input : string) : float :=
  let '(neg, s) := sign (trimStart input) in
  if prefix "Infinity" s then (if neg then neg_infinity else infinity)
  else
    let '(ip, ni, s1) := digits 10 0 0 s in
    let '(m, nf, s2) :=
      match s1 with
      | String "." r => digits 10 ip 0 r
      | _ => (ip, O, s1)
      end in
    match ni, nf with
    | O, O => nan
    | _, _ => let '(e, _) := exponentPart s2 in ofDecimal neg m (e - Z.of_nat nf)
    end.

(** [parseInt(input, radix)]; the radix [0] stands for an omitted one. *)
Definition parseInt (input : string) (radix : N) : float :=
  let '(neg, s) := sign (trimStart input) in
  if (negb (radix =? 0) && ((radix <? 2) || (36 <? radix)))%N then nan
  else
    let stripPrefix := ((radix =? 0) || (radix =? 16))%N in
    let hex := stripPrefix && (prefix "0x" s || prefix "0X" s) in
    let R := if hex then 16%N else if (radix =? 0)%N then 10%N else radix in
    let body := if hex then slice s 2 None else s in
    let '(v, n, _) := digits R 0 0 body in
    match n with
    | O => nan
    | S _ => ofDecimal neg v 0
    end.

End Js.

(** ** The data model ([src/types/wallet.ts]) *)

Record Token := {
  id : string;
  symbol : string;
  name : string;
  balance : string;
  decimals : Z;
  address : string;
  chain : string;
  logoURI : string;
  priceUSD : string;
}.

Record TransferParams := {
  token : Token;
  toAddress : string;
  amount : string;
}.

(** ** Effects *)

(** A value that an SDK or an extension throws (the reason of a rejected
    promise): an object, of which the code inspects [instanceof Error],
    [message] and [code]. *)
Record Thrown := {
  instanceofError : bool;
  message : string;
  code : option Z;
}.

Inductive outcome (A : Type) : Type :=
| Returns (a : A)
| Throws (e : Thrown).
Arguments Returns {A} a.
Arguments Throws {A} e.

(** The calls into the chain SDKs and the wallet extensions, with the
    arguments the code passes. *)
Inductive SdkCall :=
(* ethers *)
| JsonRpcProvider_getBalance (rpcUrl account : string)
| Contract_balanceOf (contract wallet : string)
| Contract_decimals (contract : string)
| Contract_transfer (contract to : string) (value : Z)
| BrowserProvider_getSigner
| Signer_sendTransaction (to : string) (value : Z)
| Tx_wait
| Ethers_parseEther (amount : string)
| Ethers_parseUnits (amount : string) (decimals : Z)
(* window.ethereum *)
| Ethereum_request (method : string)
(* @solana/web3.js and window.solana *)
| New_PublicKey (key : string)
| Connection_getBalance (publicKey : string)
| Connection_getLatestBlockhash
| Connection_sendRawTransaction
| Connection_confirmTransaction (signature commitment : string)
| SystemProgram_transfer (fromPubkey toPubkey : string) (lamports : float)
| Transaction_serialize
| Solana_connect
| Solana_signTransaction
(* aptos and window.petra *)
| CoinClient_checkBalance (account : string)
| AptosClient_getAccount (account : string)
| AptosClient_getAccountResources (account : string)
| AptosClient_getAccountResource (account resourceType : string)
| AptosClient_getLedgerInfo
| AptosClient_waitForTransaction (hash : string)
| Petra_isConnected
| Petra_connect
| Petra_account
| Petra_signAndSubmitTransaction (function_ typeArgument recipient amount : string).

Inductive ToastVariant := DefaultVariant | Destructive.
Inductive ConsoleLevel := ConsoleLog | ConsoleWarn | ConsoleError.

(** What a run leaves behind, in order.  [Called] and [Rejected] are the
    observation of an SDK or extension call and of the error it raised;
    the other events are what the code itself does. *)
Inductive Event :=
| Toast (title description : string) (variant : ToastVariant)
| Console (level : ConsoleLevel) (text : string)
| Called (c : SdkCall)
| Rejected (c : SdkCall) (e : Thrown)
| SetFetchingBalances (b : bool)
| SetTokenBalances (tokens : list Token).

(** A computation: its trace and how it completed. *)
Definition M (A : Type) : Type := list Event * outcome A.

Definition ret {A} (a : A) : M A := ([], Returns a).

Definition bind {A B} (m : M A) (k : A -> M B) : M B :=
  match m with
  | (t, Returns a) => let (t', r) := k a in ((t ++ t')%list, r)
  | (t, Throws e) => (t, Throws e)
  end.

Definition emit (ev : Event) : M unit := ([ev], Returns tt).

Definition throw {A} (e : Thrown) : M A := ([], Throws e).

(** [try { m } catch (e) { h e }] *)
Definition try_catch {A} (m : M A) (h : Thrown -> M A) : M A :=
  match m with
  | (t, Returns a) => (t, Returns a)
  | (t, Throws e) => let (t', r) := h e in ((t ++ t')%list, r)
  end.

(** [try { m } finally { f }] *)
Definition finally {A} (m : M A) (f : M unit) : M A :=
  let (t, r) := m in
  match f with
  | (t', Returns _) => ((t ++ t')%list, r)
  | (t', Throws e) => ((t ++ t')%list, Throws e)
  end.

Notation "x <- m ;; k" := (bind m (fun x => k))
  (at level 61, m at next level, right associativity).
Notation "m ;; k" := (bind m (fun _ => k))
  (at level 61, right associativity).

(** [await] of an SDK or extension call whose answer is [o]. *)
Definition call {A} (c : SdkCall) (o : outcome A) : M A :=
  match o with
  | Returns a => ([Called c], Returns a)
  | Throws e => ([Called c; Rejected c e], Throws e)
  end.

Definition toast (title description : string) (variant : ToastVariant) : M unit :=
  emit (Toast title description variant).

Definition console (level : ConsoleLevel) (text : string) : M unit :=
  emit (Console level text).

(** The completion of a block that may execute a [return] statement. *)
Inductive completion (A : Type) : Type :=
| Normal
| Return (a : A).
Arguments Normal {A}.
Arguments Return {A} a.

(** [error instanceof Error ? error.message : "Unknown error"] *)
Definition errorMessage (error : Thrown) : string :=
  if instanceofError error then message error else "Unknown error".

Definition trace {A} (m : M A) : list Event := fst m.
Definition result {A} (m : M A) : outcome A := snd m.

(** ** The environment

    How the outside world answers during one invocation.  A field that is
    a function is indexed by the arguments of the call; the requests that
    [transferERC20] sends to the extension have one field each, in the
    order of the source.  Constructors of SDK client objects
    ([JsonRpcProvider], [Contract], [Connection], [AptosClient],
    [CoinClient], [Transaction]) perform no request and are not events;
    [new PublicKey(s)] validates its argument and may throw. *)

(** The pure library functions whose results the code passes along. *)
Record Library := {
  formatEther : Z -> string;                  (* ethers.formatEther *)
  formatUnits : Z -> Z -> string;             (* ethers.formatUnits *)
  Number_toString : float -> string;          (* Number.prototype.toString *)
  BigInt_toString : Z -> string;              (* BigInt.prototype.toString *)
  Math_pow : float -> float -> float;         (* Math.pow *)
  (* new BigNumber(a).multipliedBy(new BigNumber(10).pow(d)).toFixed(0) *)
  BigNumber_scaled : string -> Z -> string;
}.

(** [window.ethereum] *)
Record EthereumProvider := {
  eth_chainId : outcome string;
  wallet_switchEthereumChain : outcome unit;
  wallet_addEthereumChain : outcome unit;
  wallet_switchEthereumChain_again : outcome unit;
}.

Record Ethers := {
  provider_getBalance : string -> string -> outcome Z;
  contract_balanceOf : string -> string -> outcome Z;
  contract_decimals : string -> outcome Z;
  contract_transfer : string -> string -> Z -> outcome unit;
  provider_getSigner : outcome unit;
  signer_sendTransaction : string -> Z -> outcome unit;
  tx_wait : outcome unit;
  parseEther : string -> outcome Z;
  parseUnits : string -> Z -> outcome Z;
}.

(** [window.solana] *)
Record SolanaWalletProvider := {
  sol_isConnected : bool;
  sol_publicKey : string;
  sol_connect : outcome unit;
  sol_signTransaction : outcome unit;
}.

Record SolanaWeb3 := {
  new_PublicKey : string -> outcome unit;
  connection_getBalance : string -> outcome float;
  connection_getLatestBlockhash : outcome string;
  connection_sendRawTransaction : outcome string;
  connection_confirmTransaction : string -> outcome unit;
  systemProgram_transfer : string -> string -> float -> outcome unit;
  transaction_serialize : outcome unit;
}.

(** An account resource: [r.type] and, for a coin store, [r.data.coin.value]. *)
Record Resource := {
  resourceType : string;
  coinValue : string;
}.

(** [metadata.data] of a [CoinInfo] resource; a field may be absent. *)
Record CoinInfo := {
  coinSymbol : option string;
  coinName : option string;
  coinDecimals : option Z;
}.

Record Aptos := {
  coinClient_checkBalance : string -> outcome Z;
  client_getAccount : string -> outcome unit;
  client_getAccountResources : string -> outcome (list Resource);
  client_getAccountResource : string -> string -> outcome CoinInfo;
  client_getLedgerInfo : outcome unit;
  client_waitForTransaction : string -> outcome unit;
}.

(** [window.petra]; [petra_account] is [account.address]. *)
Record PetraWallet := {
  petra_isConnected : outcome bool;
  petra_connect : outcome unit;
  petra_account : outcome string;
  petra_signAndSubmitTransaction : outcome string;
}.

Record World := {
  library : Library;
  window_ethereum : option EthereumProvider;
  window_solana : option SolanaWalletProvider;
  window_petra : option PetraWallet;
  ethers : Ethers;
  solana : SolanaWeb3;
  aptos : Aptos;
}.

Definition LAMPORTS_PER_SOL : float := 1000000000%float.

(** The [TypeError] of a property access on [undefined]. *)
Definition typeErrorOfUndefined (property : string) : Thrown :=
  {| instanceofError := true;
     message := "Cannot read properties of undefined (reading '" ++ property ++ "')";
     code := None |}.

(** ** The connectors *)

(** [src/components/EVMWalletConnector.tsx] *)
Module EVMWalletConnector.

Definition emptyToken : Token :=
  {| id := "error"; symbol := "ERR"; name := "Error fetching tokens";
     balance := "0"; decimals := 18; address := ""; chain := "ethereum";
     logoURI := ""; priceUSD := "0" |}.

Definition nativeToken (W : World) (chainId : string) (nativeBalance : Z) : Token :=
  {| id := "native";
     symbol := if (chainId =? "0xaef3")%string then "CELO" else "ETH";
     name := if (chainId =? "0xaef3")%string then "Celo" else "Ethereum";
     balance := formatEther (library W) nativeBalance;
     decimals := 18; address := "native"; chain := "evm";
     logoURI := ""; priceUSD := "0" |}.

Definition fetchTokenBalances (W : World) (fetchingBalances : bool)
    (accountAddress : string) : M unit :=
  if fetchingBalances then ret tt
  else
    finally
      (try_catch
         (console ConsoleLog "Fetching token balances for EVM wallet:" ;;
          emit (SetFetchingBalances true) ;;
          chainId <- match window_ethereum W with
                     | Some ethereum =>
                         call (Ethereum_request "eth_chainId") (eth_chainId ethereum)
                     | None => throw (typeErrorOfUndefined "request")
                     end ;;
          console ConsoleLog "Current chain ID:" ;;
          let rpcUrl := if (chainId =? "0xaef3")%string
                        then "https://alfajores-forno.celo-testnet.org"
                        else "https://eth-mainnet.g.alchemy.com/v2/demo" in
          nativeBalance <- call (JsonRpcProvider_getBalance rpcUrl accountAddress)
                             (provider_getBalance (ethers W) rpcUrl accountAddress) ;;
          console ConsoleLog "Setting EVM token balances:" ;;
          emit (SetTokenBalances [nativeToken W chainId nativeBalance]))
         (fun error =>
            console ConsoleError "Error fetching EVM token balances:" ;;
            emit (SetTokenBalances [emptyToken])))
      (emit (SetFetchingBalances false)).

(** The setters of the address and of the connection flag, and
    [onConnectChange], leave nothing in the trace. *)
Definition handleDisconnect : M unit :=
  emit (SetTokenBalances []) ;;
  toast "Disconnected" "MetaMask disconnected" DefaultVariant.

End EVMWalletConnector.

(** The second [EVMWalletConnector] component of the repository
    ([src/unnamed/part_001], from line 242): the same adapter with the
    chain id parsed as a number. *)
Module EVMWalletConnector2.

Definition errorToken : Token :=
  {| id := "error"; symbol := "ERR"; name := "Error fetching tokens";
     balance := "0"; decimals := 18; address := ""; chain := "evm";
     logoURI := ""; priceUSD := "0" |}.

Definition nativeToken (W : World) (chainId : float) (nativeBalance : Z) : Token :=
  {| id := "native";
     symbol := if (chainId =? 44787)%float then "CELO" else "ETH";
     name := if (chainId =? 44787)%float then "Celo" else "Ethereum";
     balance := formatEther (library W) nativeBalance;
     decimals := 18; address := "native"; chain := "evm";
     logoURI := ""; priceUSD := "0" |}.

Definition fetchTokenBalances (W : World) (fetchingBalances : bool)
    (accountAddress : string) : M unit :=
  if fetchingBalances then ret tt
  else
    finally
      (try_catch
         (emit (SetFetchingBalances true) ;;
          chainIdHex <- match window_ethereum W with
                        | Some ethereum =>
                            call (Ethereum_request "eth_chainId") (eth_chainId ethereum)
                        | None =>
                            throw {| instanceofError := true;
                                     message := "Ethereum provider not available";
                                     code := None |}
                        end ;;
          let chainId := Js.parseInt chainIdHex 16 in
          let rpcUrl := if (chainId =? 44787)%float
                        then "https://alfajores-forno.celo-testnet.org"
                        else "https://eth-mainnet.g.alchemy.com/v2/demo" in
          nativeBalance <- call (JsonRpcProvider_getBalance rpcUrl accountAddress)
                             (provider_getBalance (ethers W) rpcUrl accountAddress) ;;
          emit (SetTokenBalances [nativeToken W chainId nativeBalance]))
         (fun error =>
            console ConsoleError "Error fetching EVM token balances:" ;;
            emit (SetTokenBalances [errorToken])))
      (emit (SetFetchingBalances false)).

End EVMWalletConnector2.

(** The Solana connector ([src/unnamed/part_001], up to line 241). *)
Module SVMWalletConnector.

Definition emptyToken : Token :=
  {| id := "error"; symbol := "ERR"; name := "Error fetching tokens";
     balance := "0"; decimals := 9; address := ""; chain := "svm";
     logoURI := ""; priceUSD := "0" |}.

Definition solToken (W : World) (lamports : float) : Token :=
  {| id := "SOL"; symbol := "SOL"; name := "Solana";
     balance := Number_toString (library W) (lamports / LAMPORTS_PER_SOL)%float;
     decimals := 9; address := "native"; chain := "svm";
     logoURI := ""; priceUSD := "0" |}.

Definition fetchTokenBalances (W : World) (fetchingBalances : bool)
    (publicKeyStr : string) : M unit :=
  if fetchingBalances then ret tt
  else
    finally
      (try_catch
         (console ConsoleLog "Fetching token balances for Solana wallet:" ;;
          emit (SetFetchingBalances true) ;;
          call (New_PublicKey publicKeyStr) (new_PublicKey (solana W) publicKeyStr) ;;
          lamports <- call (Connection_getBalance publicKeyStr)
                        (connection_getBalance (solana W) publicKeyStr) ;;
          console ConsoleLog "Setting Solana token balances:" ;;
          emit (SetTokenBalances [solToken W lamports]))
         (fun error =>
            console ConsoleError "Error fetching Solana token balances:" ;;
            emit (SetTokenBalances [emptyToken])))
      (emit (SetFetchingBalances false)).

Definition handleDisconnect : M unit :=
  emit (SetTokenBalances []) ;;
  toast "Disconnected" "Phantom wallet disconnected" DefaultVariant.

End SVMWalletConnector.

(** [await Promise.all(items.map(f))]: the callbacks, all of them started,
    yield the array of their results in the order of [items], or the
    rejection of one of them.  Their console output is put in the order
    of [items]. *)
Fixpoint promiseAllMap {A B} (f : A -> M B) (items : list A) : M (list B) :=
  match items with
  | [] => ret []
  | x :: rest =>
      y <- f x ;;
      ys <- promiseAllMap f rest ;;
      ret (y :: ys)
  end.

(** The Aptos connector ([src/unnamed/part_002]). *)
Module MVMWalletConnector.

Definition emptyToken : Token :=
  {| id := "error"; symbol := "ERR"; name := "Error fetching tokens";
     balance := "0"; decimals := 8; address := ""; chain := "mvm";
     logoURI := ""; priceUSD := "0" |}.

Definition isCoinStore (r : Resource) : bool :=
  Js.startsWith (resourceType r) "0x1::coin::CoinStore<".

(** [resource.type.match(/<(.+)>/)?.[1] ?? ""] *)
Definition tokenTypeOf (resource : Resource) : string :=
  match Js.matchAngle (resourceType resource) with
  | Some t => t
  | None => ""
  end.

(** The metadata lookup of one coin store, with its fallback. *)
Definition coinMetadata (W : World) (tokenType : string) : M (string * string * Z) :=
  let symbol := "UNKNOWN" in
  let name := "Unknown Token" in
  let decimals := 8 in
  try_catch
    (let creatorAddr := Js.splitHead tokenType "::" in
     let infoType := "0x1::coin::CoinInfo<" ++ tokenType ++ ">" in
     coinInfo <- call (AptosClient_getAccountResource creatorAddr infoType)
                   (client_getAccountResource (aptos W) creatorAddr infoType) ;;
     ret (match coinSymbol coinInfo with Some s => s | None => symbol end,
          match coinName coinInfo with Some n => n | None => name end,
          match coinDecimals coinInfo with Some d => d | None => decimals end))
    (fun err =>
       console ConsoleWarn ("Failed to fetch metadata for " ++ tokenType ++ ":") ;;
       ret (symbol, name, decimals)).

(** The callback mapped over the coin stores. *)
Definition tokenOfCoinStore (W : World) (resource : Resource) : M Token :=
  let tokenType := tokenTypeOf resource in
  let balance := coinValue resource in
  metadata <- coinMetadata W tokenType ;;
  let '(symbol, name, decimals) := metadata in
  ret {| id := tokenType;
         symbol := symbol;
         name := name;
         balance := Number_toString (library W)
                      (Js.parseInt balance 0
                       / Math_pow (library W) 10 (Js.ofZ decimals))%float;
         decimals := decimals;
         address := tokenType;
         chain := "mvm";
         logoURI := "";
         priceUSD := "0" |}.

Definition fetchTokenBalances (W : World) (fetchingBalances : bool)
    (accountAddress : string) : M unit :=
  if fetchingBalances then ret tt
  else
    finally
      (try_catch
         (console ConsoleLog "Fetching token balances for MVM wallet:" ;;
          emit (SetFetchingBalances true) ;;
          resources <- call (AptosClient_getAccountResources accountAddress)
                         (client_getAccountResources (aptos W) accountAddress) ;;
          console ConsoleLog "Account resources:" ;;
          let coinStores := filter isCoinStore resources in
          console ConsoleLog "Found coin stores:" ;;
          let tokenBalances : list Token := [] in
          otherTokens <- promiseAllMap (tokenOfCoinStore W) coinStores ;;
          let tokenBalances := (tokenBalances ++ otherTokens)%list in
          console ConsoleLog "Setting token balances:" ;;
          emit (SetTokenBalances tokenBalances))
         (fun error =>
            console ConsoleError "Error fetching token balances:" ;;
            emit (SetTokenBalances [emptyToken])))
      (emit (SetFetchingBalances false)).

Definition handleDisconnect : M unit :=
  emit (SetTokenBalances []) ;;
  toast "Disconnected" "Petra Wallet disconnected" DefaultVariant.

End MVMWalletConnector.

(** ** The aggregation view ([src/unnamed/part_000]) *)
Module Index.

(** The state update of [handleSetTokenBalances(tokens, chain)]:
    the function passed to [setAllTokens], applied to the prior list. *)
Definition handleSetTokenBalances (tokens : list Token) (chain_ : string)
    (prev : list Token) : list Token :=
  let filtered := filter (fun token => negb (chain token =? chain_)%string) prev in
  (filtered ++ tokens)%list.

(** The three connectors the page mounts, and the tag each one's
    [setTokenBalances] property is bound to. *)
Inductive Connector := MVM | EVM | SVM.

Definition chainTag (c : Connector) : string :=
  match c with
  | MVM => "mvm"
  | EVM => "evm"
  | SVM => "svm"
  end.

(** The list after a connector's run: every [setTokenBalances] of its
    trace is a [handleSetTokenBalances] with the connector's tag. *)
Fixpoint deliver (c : Connector) (events : list Event) (allTokens : list Token)
    : list Token :=
  match events with
  | [] => allTokens
  | SetTokenBalances tokens :: rest =>
      deliver c rest (handleSetTokenBalances tokens (chainTag c) allTokens)
  | _ :: rest => deliver c rest allTokens
  end.

End Index.

(** ** Balance helpers and transfer routines ([src/utils/wallet.ts]) *)
Module Wallet.

Definition APTOS_NODE_URL : string := "https://fullnode.devnet.aptoslabs.com".





(** The function is declared to return [Token[]]; [None] is the
    [undefined] of a body that ends without a [return].  The client
    is built ahead of the two [try] blocks. *)
Definition getAllMVMTokenBalances (W : World) (walletAddress : string)
    : M (option (list Token)) :=
  lookup <- try_catch
              (call (AptosClient_getAccount walletAddress)
                 (client_getAccount (aptos W) walletAddress) ;;
               ret (@Normal (list Token)))
              (fun error =>
                 toast "Account Not Found"
                   "This Aptos address does not exist on chain. Please fund it with a small amount of APT to activate."
                   Destructive ;;
                 ret (Return [])) ;;
  match lookup with
  | Return tokens => ret (Some tokens)
  | Normal =>
      fetched <- try_catch
                   (resources <- call (AptosClient_getAccountResources walletAddress)
                                   (client_getAccountResources (aptos W) walletAddress) ;;
                    ret (@Normal (list Token)))
                   (fun error =>
                      console ConsoleError "Error fetching MVM token balances:" ;;
                      ret (Return [])) ;;
      match fetched with
      | Return tokens => ret (Some tokens)
      | Normal => ret None
      end
  end.

(** [`... to ${toAddress.slice(0, 6)}...${toAddress.slice(-4)}`] *)
Definition shortAddress (toAddress : string) : string :=
  Js.slice toAddress 0 (Some 6) ++ "..." ++ Js.slice toAddress (-4) None.

Definition transferMVMToken (W : World) (token : Token) (toAddress amount : string)
    : M bool :=
  try_catch
    (match window_petra W with
     | None =>
         toast "Error" "Petra wallet not installed." Destructive ;;
         ret false
     | Some petra =>
         connected <- call Petra_isConnected (petra_isConnected petra) ;;
         (if negb connected then call Petra_connect (petra_connect petra) else ret tt) ;;
         accountAddress <- call Petra_account (petra_account petra) ;;
         if (accountAddress =? "")%string then
           toast "Error" "Could not get Petra wallet address." Destructive ;;
           ret false
         else
           let typeTag := address token in
           let typeTag :=
             if (typeTag =? "")%string || negb (Js.includes typeTag "::")
             then "0x1::aptos_coin::AptosCoin" else typeTag in
           let amountInSmallestUnit :=
             BigNumber_scaled (library W) amount (decimals token) in
           call AptosClient_getLedgerInfo (client_getLedgerInfo (aptos W)) ;;
           console ConsoleLog "Local time (s):" ;;
           txnHash <- call (Petra_signAndSubmitTransaction "0x1::coin::transfer"
                              typeTag toAddress amountInSmallestUnit)
                        (petra_signAndSubmitTransaction petra) ;;
           call (AptosClient_waitForTransaction txnHash)
             (client_waitForTransaction (aptos W) txnHash) ;;
           toast "Transfer Successful"
             ("Transferred " ++ amount ++ " " ++ symbol token ++ " to "
              ++ shortAddress toAddress) DefaultVariant ;;
           ret true
     end)
    (fun error =>
       toast "Transfer Failed" (errorMessage error) Destructive ;;
       ret false).

(** [switchError.code === 4902] *)
Definition isUnrecognizedChain (switchError : Thrown) : bool :=
  match code switchError with
  | Some c => c =? 4902
  | None => false
  end.

Definition transferERC20 (W : World) (tokenAddress toAddress amount : string)
    : M bool :=
  try_catch
    (match window_ethereum W with
     | None =>
         toast "Error" "No Ethereum wallet found. Please install MetaMask." Destructive ;;
         ret false
     | Some ethereum =>
         switched <-
           try_catch
             (call (Ethereum_request "wallet_switchEthereumChain")
                (wallet_switchEthereumChain ethereum) ;;
              ret (@Normal bool))
             (fun switchError =>
                if isUnrecognizedChain switchError then
                  try_catch
                    (call (Ethereum_request "wallet_addEthereumChain")
                       (wallet_addEthereumChain ethereum) ;;
                     call (Ethereum_request "wallet_switchEthereumChain")
                       (wallet_switchEthereumChain_again ethereum) ;;
                     ret Normal)
                    (fun addError =>
                       toast "Network Error"
                         "Could not switch to Celo Alfajores network" Destructive ;;
                       ret (Return false))
                else
                  toast "Network Error"
                    "Please switch to Celo Alfajores manually." Destructive ;;
                  ret (Return false)) ;;
         match switched with
         | Return b => ret b
         | Normal =>
             call BrowserProvider_getSigner (provider_getSigner (ethers W)) ;;
             (if negb (tokenAddress =? "")%string && negb (tokenAddress =? "native")%string
              then
                decimals <- call (Contract_decimals tokenAddress)
                              (contract_decimals (ethers W) tokenAddress) ;;
                amountInWei <- call (Ethers_parseUnits amount decimals)
                                 (parseUnits (ethers W) amount decimals) ;;
                call (Contract_transfer tokenAddress toAddress amountInWei)
                  (contract_transfer (ethers W) tokenAddress toAddress amountInWei) ;;
                call Tx_wait (tx_wait (ethers W))
              else
                amountInWei <- call (Ethers_parseEther amount)
                                 (parseEther (ethers W) amount) ;;
                call (Signer_sendTransaction toAddress amountInWei)
                  (signer_sendTransaction (ethers W) toAddress amountInWei) ;;
                call Tx_wait (tx_wait (ethers W))) ;;
             toast "Transfer Successful"
               ("Transferred " ++ amount ++ " to " ++ shortAddress toAddress)
               DefaultVariant ;;
             ret true
         end
     end)
    (fun error =>
       toast "Transfer Failed" (errorMessage error) Destructive ;;
       ret false).

Definition transferSOL (W : World) (toAddress amount : string) : M bool :=
  try_catch
    (match window_solana W with
     | None =>
         toast "Error" "No Solana wallet found. Please install Phantom." Destructive ;;
         ret false
     | Some wallet =>
         (if negb (sol_isConnected wallet)
          then call Solana_connect (sol_connect wallet) else ret tt) ;;
         let publicKey := sol_publicKey wallet in
         currentBalance <- call (Connection_getBalance publicKey)
                             (connection_getBalance (solana W) publicKey) ;;
         let transferAmount := (Js.parseFloat amount * LAMPORTS_PER_SOL)%float in
         if (currentBalance <? transferAmount)%float then
           toast "Insufficient Balance"
             ("You need at least " ++ amount ++ " SOL.") Destructive ;;
           ret false
         else
           call (New_PublicKey toAddress) (new_PublicKey (solana W) toAddress) ;;
           call (SystemProgram_transfer publicKey toAddress transferAmount)
             (systemProgram_transfer (solana W) publicKey toAddress transferAmount) ;;
           call Connection_getLatestBlockhash
             (connection_getLatestBlockhash (solana W)) ;;
           call Solana_signTransaction (sol_signTransaction wallet) ;;
           call Transaction_serialize (transaction_serialize (solana W)) ;;
           signature <- call Connection_sendRawTransaction
                          (connection_sendRawTransaction (solana W)) ;;
           call (Connection_confirmTransaction signature "confirmed")
             (connection_confirmTransaction (solana W) signature) ;;
           toast "Transfer Successful"
             ("Transferred " ++ amount ++ " SOL to " ++ shortAddress toAddress)
             DefaultVariant ;;
           ret true
     end)
    (fun error =>
       toast "Transfer Failed" (errorMessage error) Destructive ;;
       ret false).

Definition transferTokens (W : World) (params : TransferParams) : M bool :=
  let token := token params in
  let toAddress := toAddress params in
  let amount := amount params in
  if (chain token =? "evm")%string then
    transferERC20 W (if (address token =? "")%string then "native" else address token)
      toAddress amount
  else if (chain token =? "svm")%string then
    transferSOL W toAddress amount
  else if (chain token =? "mvm")%string then
    transferMVMToken W token toAddress amount
  else
    toast "Error" "Unsupported chain" Destructive ;;
    ret false.

End Wallet.

(** ** Observations on traces *)

(** The token lists handed to [setTokenBalances], in order. *)
Fixpoint reported (events : list Event) : list (list Token) :=
  match events with
  | [] => []
  | SetTokenBalances tokens :: rest => tokens :: reported rest
  | _ :: rest => reported rest
  end.

Definition isToast (ev : Event) : bool :=
  match ev with
  | Toast _ _ _ => true
  | _ => false
  end.

Definition isCalled (ev : Event) : bool :=
  match ev with
  | Called _ => true
  | _ => false
  end.

(** No user notification in the trace. *)
Definition notifyFree (events : list Event) : bool :=
  forallb (fun ev => negb (isToast ev)) events.

(** No SDK or extension call in the trace. *)
Definition callFree (events : list Event) : bool :=
  forallb (fun ev => negb (isCalled ev)) events.

(** The fetcher of each connector the page mounts, its error marker, and
    the request whose failure is the failure of the fetch as a whole. *)
Definition fetchTokenBalancesOf (c : Index.Connector)
    : World -> bool -> string -> M unit :=
  match c with
  | Index.EVM => EVMWalletConnector.fetchTokenBalances
  | Index.SVM => SVMWalletConnector.fetchTokenBalances
  | Index.MVM => MVMWalletConnector.fetchTokenBalances
  end.

Definition errorMarkerOf (c : Index.Connector) : Token :=
  match c with
  | Index.EVM => EVMWalletConnector.emptyToken
  | Index.SVM => SVMWalletConnector.emptyToken
  | Index.MVM => MVMWalletConnector.emptyToken
  end.

Definition errorLogOf (c : Index.Connector) : Event :=
  match c with
  | Index.EVM => Console ConsoleError "Error fetching EVM token balances:"
  | Index.SVM => Console ConsoleError "Error fetching Solana token balances:"
  | Index.MVM => Console ConsoleError "Error fetching token balances:"
  end.

(** The fetch of connector [c] for [account] fails as a whole in [W]:
    a request of the fetch other than a per-token metadata lookup is
    rejected or, for the EVM connector, the extension object is absent. *)
Definition fetchFails (c : Index.Connector) (W : World) (account : string) : Prop :=
  match c with
  | Index.EVM =>
      window_ethereum W = None \/
      exists call e,
        In (Rejected call e) (trace (EVMWalletConnector.fetchTokenBalances W false account))
  | Index.SVM =>
      exists call e,
        In (Rejected call e) (trace (SVMWalletConnector.fetchTokenBalances W false account))
  | Index.MVM =>
      exists e,
        In (Rejected (AptosClient_getAccountResources account) e)
          (trace (MVMWalletConnector.fetchTokenBalances W false account))
  end.

(** An answer of the environment that is a rejection. *)
Definition isRejection {A} (o : outcome A) : bool :=
  match o with
  | Throws _ => true
  | Returns _ => false
  end.

(** The environments in which the fetch of connector [c] for [account]
    fails as a whole, read off the answers of the environment alone: the
    extension object is absent or rejects the request for the chain id,
    or the balance query is rejected (EVM); the key is refused or the
    balance query is rejected (Solana); the enumeration of the resources
    is rejected (Aptos). *)
Definition fetchRejected (c : Index.Connector) (W : World) (account : string) : bool :=
  match c with
  | Index.EVM =>
      match window_ethereum W with
      | None => true
      | Some ethereum =>
          match eth_chainId ethereum with
          | Throws _ => true
          | Returns chainId =>
              isRejection
                (provider_getBalance (ethers W)
                   (if (chainId =? "0xaef3")%string
                    then "https://alfajores-forno.celo-testnet.org"
                    else "https://eth-mainnet.g.alchemy.com/v2/demo")
                   account)
          end
      end
  | Index.SVM =>
      isRejection (new_PublicKey (solana W) account)
      || isRejection (connection_getBalance (solana W) account)
  | Index.MVM => isRejection (client_getAccountResources (aptos W) account)
  end.



(** A run in which some SDK or extension call was rejected. *)
Definition someCallRejected {A} (m : M A) : Prop :=
  exists c e, In (Rejected c e) (trace m).

(** What the processing of one coin store may leave in the trace. *)
Definition isMetadataEvent (ev : Event) : bool :=
  match ev with
  | Called (AptosClient_getAccountResource _ _) => true
  | Rejected (AptosClient_getAccountResource _ _) _ => true
  | Console ConsoleWarn _ => true
  | _ => false
  end.

(** The metadata lookup that the fetch makes for a coin store. *)
Definition metadataLookup (W : World) (r : Resource) : outcome CoinInfo :=
  client_getAccountResource (aptos W)
    (Js.splitHead (MVMWalletConnector.tokenTypeOf r) "::")
    ("0x1::coin::CoinInfo<" ++ MVMWalletConnector.tokenTypeOf r ++ ">").

(** The token of a coin store, as the fetch delivers it. *)
Definition isTokenOf (W : World) (r : Resource) (t : Token) : Prop :=
  id t = MVMWalletConnector.tokenTypeOf r /\
  address t = MVMWalletConnector.tokenTypeOf r /\
  chain t = "mvm" /\
  ((exists e, metadataLookup W r = Throws e) ->
   symbol t = "UNKNOWN" /\ name t = "Unknown Token" /\ decimals t = 8).

(** The connectors whose every reported token carries the tag under
    which the page files the connector's reports. *)
Definition reportsOwnTag (fetch : World -> bool -> string -> M unit) (tag : string) : Prop :=
  forall W inFlight account tokens t,
    In tokens (reported (trace (fetch W inFlight account))) ->
    In t tokens -> chain t = tag.

(** A notification of the destructive variant. *)
Definition isFailureToast (ev : Event) : bool :=
  match ev with
  | Toast _ _ Destructive => true
  | _ => false
  end.

(** A failure notification is in the trace. *)
Definition failureNotified (events : list Event) : bool :=
  existsb isFailureToast events.

(** A transfer routine that is total: it returns a boolean; [false]
    comes with a failure notification; and a rejected call makes the
    result [false] unless it is the rejection, with code 4902, of the
    request to switch the network, from which the EVM transfer recovers. *)
Definition totalTransfer (m : M bool) : Prop :=
  exists b,
    result m = Returns b /\
    (b = false -> failureNotified (trace m) = true) /\
    (forall c e, In (Rejected c e) (trace m) ->
       b = false \/
       (c = Ethereum_request "wallet_switchEthereumChain" /\ code e = Some 4902)).

(** The same without the exception. *)
Definition strictlyTotalTransfer (m : M bool) : Prop :=
  exists b,
    result m = Returns b /\
    (b = false -> failureNotified (trace m) = true) /\
    (forall c e, In (Rejected c e) (trace m) -> b = false).

(** ** Sample environments *)
Module Scenario.

(** Library functions for the examples.  The decimal printers follow
    [BigInt.prototype.toString] and the fixed-point printer of ethers;
    the other three are tables that agree with the functions of the
    language on the values of the examples. *)
Definition decimalString (n : Z) : string := NilZero.string_of_int (Z.to_int n).

Fixpoint zeros (n : nat) : string :=
  match n with
  | O => ""
  | S k => String "0" (zeros k)
  end.

Fixpoint dropTrailingZeros (s : string) : string :=
  match s with
  | EmptyString => EmptyString
  | String c r =>
      match dropTrailingZeros r with
      | EmptyString => if (c =? "0")%char then EmptyString else String c EmptyString
      | r' => String c r'
      end
  end.

Definition printUnits (value unit : Z) : string :=
  let minus := if value <? 0 then "-" else "" in
  let digits := decimalString (Z.abs value) in
  if unit <=? 0 then minus ++ digits
  else
    let d := Z.to_nat unit in
    let padded := zeros (S d - String.length digits) ++ digits in
    let index := (String.length padded - d)%nat in
    let fraction := match dropTrailingZeros (substring index d padded) with
                    | EmptyString => "0"
                    | f => f
                    end in
    minus ++ substring 0 index padded ++ "." ++ fraction.

Definition sampleLibrary : Library :=
  {| formatEther := fun wei => printUnits wei 18;
     formatUnits := printUnits;
     Number_toString := fun x =>
       if (x =? 0)%float then "0"
       else if (x =? 1)%float then "1"
       else if (x =? 2.5)%float then "2.5"
       else if (x =? 7 / 100000000)%float then "7e-8"
       else "NaN";
     BigInt_toString := decimalString;
     Math_pow := fun x y =>
       if ((x =? 10) && (y =? 8))%float then 100000000%float else nan;
     BigNumber_scaled := fun a d =>
       if ((a =? "0.1")%string && (d =? 18)) then "100000000000000000"
       else if ((a =? "0.1")%string && (d =? 8)) then "10000000"
       else "NaN" |}.

Definition rejection : Thrown :=
  {| instanceofError := true; message := "network error"; code := None |}.

(** The rejection of an extension that does not know the chain. *)
Definition unrecognizedChain : Thrown :=
  {| instanceofError := false;
     message := "Unrecognized chain ID";
     code := Some 4902 |}.

Definition metaMask : EthereumProvider :=
  {| eth_chainId := Returns "0xaef3";
     wallet_switchEthereumChain := Returns tt;
     wallet_addEthereumChain := Returns tt;
     wallet_switchEthereumChain_again := Returns tt |}.

(** The extension while its RPC backend is unreachable. *)
Definition metaMaskOffline : EthereumProvider :=
  {| eth_chainId := Throws rejection;
     wallet_switchEthereumChain := Throws rejection;
     wallet_addEthereumChain := Throws rejection;
     wallet_switchEthereumChain_again := Throws rejection |}.

(** The extension before the Celo test network was added to it. *)
Definition metaMaskWithoutCelo : EthereumProvider :=
  {| eth_chainId := Returns "0x1";
     wallet_switchEthereumChain := Throws unrecognizedChain;
     wallet_addEthereumChain := Returns tt;
     wallet_switchEthereumChain_again := Returns tt |}.

Definition ethersOnline : Ethers :=
  {| provider_getBalance := fun _ _ => Returns 1000000000000000000;
     contract_balanceOf := fun _ _ => Returns 5;
     contract_decimals := fun _ => Returns 18;
     contract_transfer := fun _ _ _ => Returns tt;
     provider_getSigner := Returns tt;
     signer_sendTransaction := fun _ _ => Returns tt;
     tx_wait := Returns tt;
     parseEther := fun _ => Returns 100000000000000000;
     parseUnits := fun _ _ => Returns 100000000000000000 |}.

Definition ethersOffline : Ethers :=
  {| provider_getBalance := fun _ _ => Throws rejection;
     contract_balanceOf := fun _ _ => Throws rejection;
     contract_decimals := fun _ => Throws rejection;
     contract_transfer := fun _ _ _ => Throws rejection;
     provider_getSigner := Throws rejection;
     signer_sendTransaction := fun _ _ => Throws rejection;
     tx_wait := Throws rejection;
     parseEther := fun _ => Throws rejection;
     parseUnits := fun _ _ => Throws rejection |}.

Definition phantom : SolanaWalletProvider :=
  {| sol_isConnected := true;
     sol_publicKey := "4Nd1mYvQ9pGk3LJc7hVfT2sXwRzB6uEaHq8tKjD5oPiM";
     sol_connect := Returns tt;
     sol_signTransaction := Returns tt |}.

(** A devnet on which every account holds 2.5 SOL. *)
Definition solanaOnline : SolanaWeb3 :=
  {| new_PublicKey := fun _ => Returns tt;
     connection_getBalance := fun _ => Returns 2500000000%float;
     connection_getLatestBlockhash := Returns "blockhash";
     connection_sendRawTransaction := Returns "signature";
     connection_confirmTransaction := fun _ => Returns tt;
     systemProgram_transfer := fun _ _ _ => Returns tt;
     transaction_serialize := Returns tt |}.

Definition solanaOffline : SolanaWeb3 :=
  {| new_PublicKey := fun _ => Returns tt;
     connection_getBalance := fun _ => Throws rejection;
     connection_getLatestBlockhash := Throws rejection;
     connection_sendRawTransaction := Throws rejection;
     connection_confirmTransaction := fun _ => Throws rejection;
     systemProgram_transfer := fun _ _ _ => Returns tt;
     transaction_serialize := Returns tt |}.

Definition aptStore : Resource :=
  {| resourceType := "0x1::coin::CoinStore<0x1::aptos_coin::AptosCoin>";
     coinValue := "100000000" |}.

Definition moonStore : Resource :=
  {| resourceType := "0x1::coin::CoinStore<0xbeef::moon::MoonCoin>";
     coinValue := "7" |}.

Definition accountResource : Resource :=
  {| resourceType := "0x1::account::Account"; coinValue := "" |}.

(** A node that knows the metadata of the native coin only. *)
Definition aptosOnline : Aptos :=
  {| coinClient_checkBalance := fun _ => Returns 100000000;
     client_getAccount := fun _ => Returns tt;
     client_getAccountResources := fun _ => Returns [accountResource; moonStore; aptStore];
     client_getAccountResource := fun creator _ =>
       if (creator =? "0x1")%string
       then Returns {| coinSymbol := Some "APT"; coinName := Some "Aptos Coin";
                       coinDecimals := Some 8 |}
       else Throws rejection;
     client_getLedgerInfo := Returns tt;
     client_waitForTransaction := fun _ => Returns tt |}.

Definition aptosOffline : Aptos :=
  {| coinClient_checkBalance := fun _ => Throws rejection;
     client_getAccount := fun _ => Throws rejection;
     client_getAccountResources := fun _ => Throws rejection;
     client_getAccountResource := fun _ _ => Throws rejection;
     client_getLedgerInfo := Throws rejection;
     client_waitForTransaction := fun _ => Throws rejection |}.

Definition petra : PetraWallet :=
  {| petra_isConnected := Returns true;
     petra_connect := Returns tt;
     petra_account := Returns "0xa11ce";
     petra_signAndSubmitTransaction := Returns "0xhash" |}.

(** Every extension installed and every endpoint answering. *)
Definition online : World :=
  {| library := sampleLibrary;
     window_ethereum := Some metaMask;
     window_solana := Some phantom;
     window_petra := Some petra;
     ethers := ethersOnline;
     solana := solanaOnline;
     aptos := aptosOnline |}.

(** Every extension installed and every endpoint failing. *)
Definition offline : World :=
  {| library := sampleLibrary;
     window_ethereum := Some metaMaskOffline;
     window_solana := Some phantom;
     window_petra := Some petra;
     ethers := ethersOffline;
     solana := solanaOffline;
     aptos := aptosOffline |}.

(** [online], with an extension that has yet to learn the Celo network. *)
Definition onlineWithoutCelo : World :=
  {| library := sampleLibrary;
     window_ethereum := Some metaMaskWithoutCelo;
     window_solana := Some phantom;
     window_petra := Some petra;
     ethers := ethersOnline;
     solana := solanaOnline;
     aptos := aptosOnline |}.





Definition alice : string := "0x52908400098527886E0F7030069857D2E4169EE7".

Definition celo : Token :=
  EVMWalletConnector.nativeToken online "0xaef3" 1000000000000000000.

Definition sol : Token :=
  {| id := "SOL"; symbol := "SOL"; name := "Solana"; balance := "2.5";
     decimals := 9; address := "native"; chain := "svm";
     logoURI := ""; priceUSD := "0" |}.

End Scenario.

From Stdlib Require Import Permutation.

(** ** The user interface

    The rest of the connectors and of the page: what they do besides the
    balance and transfer code is to set React state, to talk to the
    browser and to ask the extension to connect or disconnect.  These
    are events of a second trace, in which the events of the code above
    appear as [Core]. *)

Inductive UiEvent :=
| Core (ev : Event)
| SetAddress (account : option string)
| SetIsConnected (b : bool)
| OnConnectChange
| WindowOpen (url target : string)
| Disconnecting (wallet : string)
| DisconnectRejected (wallet : string) (e : Thrown)
| SetSelectedToken (selected : option Token)
| SetToAddress (text : string)
| SetAmount (text : string)
| SetIsTransferDialogOpen (b : bool).

Definition U (A : Type) : Type := list UiEvent * outcome A.

Definition uret {A} (a : A) : U A := ([], Returns a).

Definition ubind {A B} (m : U A) (k : A -> U B) : U B :=
  match m with
  | (t, Returns a) => let (t', r) := k a in ((t ++ t')%list, r)
  | (t, Throws e) => (t, Throws e)
  end.

Definition uemit (ev : UiEvent) : U unit := ([ev], Returns tt).

Definition uthrow {A} (e : Thrown) : U A := ([], Throws e).

Definition utry_catch {A} (m : U A) (h : Thrown -> U A) : U A :=
  match m with
  | (t, Returns a) => (t, Returns a)
  | (t, Throws e) => let (t', r) := h e in ((t ++ t')%list, r)
  end.

Definition ufinally {A} (m : U A) (f : U unit) : U A :=
  let (t, r) := m in
  match f with
  | (t', Returns _) => ((t ++ t')%list, r)
  | (t', Throws e) => ((t ++ t')%list, Throws e)
  end.

Definition utrace {A} (m : U A) : list UiEvent := fst m.
Definition uresult {A} (m : U A) : outcome A := snd m.

(** A computation of the code above, run inside the interface. *)
Definition lift {A} (m : M A) : U A := (map Core (trace m), result m).

Declare Scope ui_scope.
Delimit Scope ui_scope with ui.
Notation "x <- m ;; k" := (ubind m (fun x => k))
  (at level 61, m at next level, right associativity) : ui_scope.
Notation "m ;; k" := (ubind m (fun _ => k))
  (at level 61, right associativity) : ui_scope.

(** The events of the balance and transfer code within an interface trace. *)
Fixpoint coreTrace (events : list UiEvent) : list Event :=
  match events with
  | [] => []
  | Core ev :: rest => ev :: coreTrace rest
  | _ :: rest => coreTrace rest
  end.

(** The answers of the extensions to the requests that only the
    connectors make. *)
Record UiAnswers := {
  eth_accounts : outcome (list string);
  eth_requestAccounts : outcome (list string);
  solana_isPhantom : bool;
  phantom_disconnect : outcome unit;
  petra_disconnect : outcome unit;
}.

(** The React state of a connector, as a render sees it. *)
Module Connection.

Record State := {
  isConnected : bool;
  address : option string;
  isInstalled : bool;
  fetchingBalances : bool;
}.

(** The initial values of the four [useState]: the state that the first
    render sees. *)
Definition initial : State :=
  {| isConnected := false; address := None; isInstalled := false;
     fetchingBalances := false |}.

(** The state after a setter. *)
Definition step (st : State) (ev : UiEvent) : State :=
  match ev with
  | SetAddress a =>
      {| isConnected := isConnected st; address := a;
         isInstalled := isInstalled st; fetchingBalances := fetchingBalances st |}
  | SetIsConnected b =>
      {| isConnected := b; address := address st;
         isInstalled := isInstalled st; fetchingBalances := fetchingBalances st |}
  | Core (SetFetchingBalances b) =>
      {| isConnected := isConnected st; address := address st;
         isInstalled := isInstalled st; fetchingBalances := b |}
  | _ => st
  end.

(** The state of the next render. *)
Definition after (events : list UiEvent) (st : State) : State :=
  fold_left step events st.

End Connection.

(** [if (address)]: the address is set and not empty. *)
Definition truthy (s : option string) : option string :=
  match s with
  | Some a => if (a =? "")%string then None else Some a
  | None => None
  end.

(** The functions of a connector are created anew by every render and
    close over the state which that render saw: [render] below.  The
    setters act on the state of the component whatever the render.  A
    button runs the function of the render that is on screen.  The body
    of [useEffect(..., [])] runs once, after the first render: the
    listeners it registers with the extension, and the connection check
    it starts, are the functions of the first render and see
    [Connection.initial] for ever. *)

(** The rest of [src/components/EVMWalletConnector.tsx]. *)
Module EVMWalletConnectorActions.

Definition fetchTokenBalances (W : World) (render : Connection.State)
    (accountAddress : string) : U unit :=
  lift (EVMWalletConnector.fetchTokenBalances W (Connection.fetchingBalances render)
          accountAddress).

Definition handleDisconnect : U unit :=
  (uemit (SetAddress None) ;;
   uemit (SetIsConnected false) ;;
   uemit OnConnectChange ;;
   lift EVMWalletConnector.handleDisconnect)%ui.

Definition handleAccountsChanged (W : World) (render : Connection.State)
    (accounts : list string) : U unit :=
  match accounts with
  | account :: _ =>
      (uemit (SetAddress (Some account)) ;;
       fetchTokenBalances W render account)%ui
  | [] => handleDisconnect
  end.

Definition handleChainChanged (W : World) (render : Connection.State) : U unit :=
  match truthy (Connection.address render) with
  | Some address => fetchTokenBalances W render address
  | None => uret tt
  end.

Definition checkConnectionStatus (W : World) (A : UiAnswers) (render : Connection.State)
    : U unit :=
  utry_catch
    (match window_ethereum W with
     | None => uret tt
     | Some ethereum =>
         (accounts <- lift (call (Ethereum_request "eth_accounts") (eth_accounts A)) ;;
          match accounts with
          | account :: _ =>
              uemit (SetAddress (Some account)) ;;
              uemit (SetIsConnected true) ;;
              uemit OnConnectChange ;;
              fetchTokenBalances W render account
          | [] => uret tt
          end)%ui
     end)
    (fun error => lift (console ConsoleError "MetaMask connection check failed:")).

Definition connectWallet (W : World) (A : UiAnswers) (render : Connection.State) : U unit :=
  if negb (Connection.isInstalled render) then
    uemit (WindowOpen "https://metamask.io/download/" "_blank")
  else
    utry_catch
      (accounts <- match window_ethereum W with
                   | Some ethereum =>
                       lift (call (Ethereum_request "eth_requestAccounts")
                               (eth_requestAccounts A))
                   | None => uthrow (typeErrorOfUndefined "request")
                   end ;;
       match accounts with
       | account :: _ =>
           uemit (SetAddress (Some account)) ;;
           uemit (SetIsConnected true) ;;
           uemit OnConnectChange ;;
           lift (toast "Connected" "MetaMask connected successfully!" DefaultVariant) ;;
           fetchTokenBalances W render account
       | [] => uret tt
       end)%ui
      (fun error =>
         (lift (console ConsoleError "Error connecting to MetaMask:") ;;
          lift (toast "Connection Failed" (errorMessage error) Destructive))%ui).

(** What [setupEventListeners] registers for "accountsChanged" and
    "chainChanged", and the check that the mount effect starts. *)
Definition accountsChangedListener (W : World) (accounts : list string) : U unit :=
  handleAccountsChanged W Connection.initial accounts.

Definition chainChangedListener (W : World) : U unit :=
  handleChainChanged W Connection.initial.

Definition checkAtMount (W : World) (A : UiAnswers) : U unit :=
  checkConnectionStatus W A Connection.initial.

End EVMWalletConnectorActions.

(** The rest of the Solana connector ([src/unnamed/part_001]).  A
    [PublicKey] is the string it prints as; the empty string stands for
    the [null] key. *)
Module SVMWalletConnectorActions.

Definition getPhantomWallet (W : World) (A : UiAnswers) : option SolanaWalletProvider :=
  match window_solana W with
  | Some provider => if solana_isPhantom A then Some provider else None
  | None => None
  end.

Definition fetchTokenBalances (W : World) (render : Connection.State)
    (publicKeyStr : string) : U unit :=
  lift (SVMWalletConnector.fetchTokenBalances W (Connection.fetchingBalances render)
          publicKeyStr).

Definition handleDisconnect : U unit :=
  (uemit (SetAddress None) ;;
   uemit (SetIsConnected false) ;;
   uemit OnConnectChange ;;
   lift SVMWalletConnector.handleDisconnect)%ui.

Definition handleAccountChanged (W : World) (render : Connection.State)
    (publicKey : option string) : U unit :=
  match publicKey with
  | Some newAddress =>
      (uemit (SetAddress (Some newAddress)) ;;
       fetchTokenBalances W render newAddress)%ui
  | None => handleDisconnect
  end.

Definition checkConnectionStatus (W : World) (render : Connection.State)
    (phantom : SolanaWalletProvider) : U unit :=
  utry_catch
    (if sol_isConnected phantom && negb (sol_publicKey phantom =? "")%string then
       let publicKey := sol_publicKey phantom in
       (uemit (SetAddress (Some publicKey)) ;;
        uemit (SetIsConnected true) ;;
        uemit OnConnectChange ;;
        fetchTokenBalances W render publicKey)%ui
     else uret tt)
    (fun error => lift (console ConsoleError "Phantom wallet connection check failed:")).

Definition connectWallet (W : World) (A : UiAnswers) (render : Connection.State) : U unit :=
  if negb (Connection.isInstalled render) then
    uemit (WindowOpen "https://phantom.app/" "_blank")
  else
    utry_catch
      (match getPhantomWallet W A with
       | None =>
           uthrow {| instanceofError := true;
                     message := "Phantom wallet not available";
                     code := None |}
       | Some phantom =>
           (lift (call Solana_connect (sol_connect phantom)) ;;
            let address := sol_publicKey phantom in
            uemit (SetAddress (Some address)) ;;
            uemit (SetIsConnected true) ;;
            uemit OnConnectChange ;;
            lift (toast "Connected" "Phantom wallet connected successfully!"
                    DefaultVariant) ;;
            fetchTokenBalances W render address)%ui
       end)
      (fun error =>
         (lift (console ConsoleError "Error connecting to Phantom wallet:") ;;
          lift (toast "Connection Failed" (errorMessage error) Destructive))%ui).

(** [await phantom.disconnect()] *)
Definition requestDisconnect (wallet : string) (o : outcome unit) : U unit :=
  match o with
  | Returns _ => ([Disconnecting wallet], Returns tt)
  | Throws e => ([Disconnecting wallet; DisconnectRejected wallet e], Throws e)
  end.

Definition disconnectWallet (W : World) (A : UiAnswers) : U unit :=
  ufinally
    (utry_catch
       (match getPhantomWallet W A with
        | Some phantom => requestDisconnect "phantom" (phantom_disconnect A)
        | None => uret tt
        end)
       (fun error =>
          lift (console ConsoleError "Error disconnecting from Phantom wallet:")))
    handleDisconnect.

(** What [setupEventListeners] registers for "disconnect" and
    "accountChanged", and the check that the mount effect starts when
    [getPhantomWallet] finds the extension. *)
Definition disconnectListener : U unit := handleDisconnect.

Definition accountChangedListener (W : World) (publicKey : option string) : U unit :=
  handleAccountChanged W Connection.initial publicKey.

Definition checkAtMount (W : World) (A : UiAnswers) : U unit :=
  match getPhantomWallet W A with
  | Some phantom => checkConnectionStatus W Connection.initial phantom
  | None => uret tt
  end.

End SVMWalletConnectorActions.

(** The rest of the Aptos connector ([src/unnamed/part_002]). *)
Module MVMWalletConnectorActions.

Definition fetchTokenBalances (W : World) (render : Connection.State)
    (accountAddress : string) : U unit :=
  lift (MVMWalletConnector.fetchTokenBalances W (Connection.fetchingBalances render)
          accountAddress).

Definition handleDisconnect : U unit :=
  (uemit (SetAddress None) ;;
   uemit (SetIsConnected false) ;;
   uemit OnConnectChange ;;
   lift MVMWalletConnector.handleDisconnect)%ui.

(** The callback given to [petra.onAccountChange]. *)
Definition onAccountChange (W : World) (render : Connection.State) (newAddress : string)
    : U unit :=
  if (newAddress =? "")%string then handleDisconnect
  else
    (uemit (SetAddress (Some newAddress)) ;;
     fetchTokenBalances W render newAddress)%ui.

(** The callback given to [petra.onNetworkChange]. *)
Definition onNetworkChange (W : World) (render : Connection.State) : U unit :=
  (lift (console ConsoleLog "Network changed to:") ;;
   match truthy (Connection.address render) with
   | Some address => fetchTokenBalances W render address
   | None => uret tt
   end)%ui.

Definition checkConnectionStatus (W : World) (render : Connection.State) : U unit :=
  utry_catch
    (match window_petra W with
     | None => uret tt
     | Some petra =>
         (connected <- lift (call Petra_isConnected (petra_isConnected petra)) ;;
          if connected then
            accountAddress <- lift (call Petra_account (petra_account petra)) ;;
            if (accountAddress =? "")%string then uret tt
            else
              uemit (SetAddress (Some accountAddress)) ;;
              uemit (SetIsConnected true) ;;
              uemit OnConnectChange ;;
              fetchTokenBalances W render accountAddress
          else uret tt)%ui
     end)
    (fun error => lift (console ConsoleError "Petra Wallet connection check failed:")).

Definition connectWallet (W : World) (render : Connection.State) : U unit :=
  if negb (Connection.isInstalled render) then
    uemit (WindowOpen "https://petra.app/" "_blank")
  else
    utry_catch
      (match window_petra W with
       | None =>
           uthrow {| instanceofError := true;
                     message := "Petra Wallet not available";
                     code := None |}
       | Some petra =>
           (lift (call Petra_connect (petra_connect petra)) ;;
            accountAddress <- lift (call Petra_account (petra_account petra)) ;;
            if (accountAddress =? "")%string then uret tt
            else
              uemit (SetAddress (Some accountAddress)) ;;
              uemit (SetIsConnected true) ;;
              uemit OnConnectChange ;;
              lift (toast "Connected" "Petra Wallet connected successfully!"
                      DefaultVariant) ;;
              fetchTokenBalances W render accountAddress)%ui
       end)
      (fun error =>
         (lift (console ConsoleError "Error connecting to Petra Wallet:") ;;
          lift (toast "Connection Failed" (errorMessage error) Destructive))%ui).

Definition requestDisconnect (wallet : string) (o : outcome unit) : U unit :=
  match o with
  | Returns _ => ([Disconnecting wallet], Returns tt)
  | Throws e => ([Disconnecting wallet; DisconnectRejected wallet e], Throws e)
  end.

Definition disconnectWallet (W : World) (A : UiAnswers) : U unit :=
  ufinally
    (utry_catch
       (match window_petra W with
        | Some petra => requestDisconnect "petra" (petra_disconnect A)
        | None => uret tt
        end)
       (fun error =>
          lift (console ConsoleError "Error disconnecting from Petra Wallet:")))
    handleDisconnect.

(** The two callbacks as [setupEventListeners] hands them to the
    extension, and the check that the mount effect starts. *)
Definition accountChangeListener (W : World) (newAddress : string) : U unit :=
  onAccountChange W Connection.initial newAddress.

Definition networkChangeListener (W : World) : U unit :=
  onNetworkChange W Connection.initial.

Definition checkAtMount (W : World) : U unit :=
  checkConnectionStatus W Connection.initial.

End MVMWalletConnectorActions.

(** The transfer dialog of the page ([src/unnamed/part_000]). *)
Module IndexActions.

Record Dialog := {
  selectedToken : option Token;
  toAddressInput : string;
  amountInput : string;
  isTransferDialogOpen : bool;
}.

Definition step (d : Dialog) (ev : UiEvent) : Dialog :=
  match ev with
  | SetSelectedToken t =>
      {| selectedToken := t; toAddressInput := toAddressInput d;
         amountInput := amountInput d; isTransferDialogOpen := isTransferDialogOpen d |}
  | SetToAddress s =>
      {| selectedToken := selectedToken d; toAddressInput := s;
         amountInput := amountInput d; isTransferDialogOpen := isTransferDialogOpen d |}
  | SetAmount s =>
      {| selectedToken := selectedToken d; toAddressInput := toAddressInput d;
         amountInput := s; isTransferDialogOpen := isTransferDialogOpen d |}
  | SetIsTransferDialogOpen b =>
      {| selectedToken := selectedToken d; toAddressInput := toAddressInput d;
         amountInput := amountInput d; isTransferDialogOpen := b |}
  | _ => d
  end.

Definition after (events : list UiEvent) (d : Dialog) : Dialog :=
  fold_left step events d.

Definition handleTransfer (token : Token) : U unit :=
  (uemit (SetSelectedToken (Some token)) ;;
   uemit (SetToAddress "") ;;
   uemit (SetAmount "") ;;
   uemit (SetIsTransferDialogOpen true))%ui.

Definition handleSubmitTransfer (W : World) (d : Dialog) : U unit :=
  match selectedToken d with
  | Some selected =>
      if (toAddressInput d =? "")%string || (amountInput d =? "")%string then
        lift (toast "Error" "Please fill in all fields" Destructive)
      else
        (success <- lift (Wallet.transferTokens W
                            {| token := selected;
                               toAddress := toAddressInput d;
                               amount := amountInput d |}) ;;
         if success then
           lift (toast "Success" (symbol selected ++ " sent successfully!")
                   DefaultVariant) ;;
           uemit (SetIsTransferDialogOpen false)
         else uret tt)%ui
  | None => lift (toast "Error" "Please fill in all fields" Destructive)
  end.

End IndexActions.

(** The three connectors' [connectWallet] and [handleDisconnect]. *)
Definition connectWalletOf (c : Index.Connector) (W : World) (A : UiAnswers)
    (st : Connection.State) : U unit :=
  match c with
  | Index.EVM => EVMWalletConnectorActions.connectWallet W A st
  | Index.SVM => SVMWalletConnectorActions.connectWallet W A st
  | Index.MVM => MVMWalletConnectorActions.connectWallet W st
  end.

Definition handleDisconnectOf (c : Index.Connector) : U unit :=
  match c with
  | Index.EVM => EVMWalletConnectorActions.handleDisconnect
  | Index.SVM => SVMWalletConnectorActions.handleDisconnect
  | Index.MVM => MVMWalletConnectorActions.handleDisconnect
  end.

Definition installPageOf (c : Index.Connector) : string :=
  match c with
  | Index.EVM => "https://metamask.io/download/"
  | Index.SVM => "https://phantom.app/"
  | Index.MVM => "https://petra.app/"
  end.

(** ** Further observations *)

(** The chain whose SDK and extension a call belongs to. *)
Definition chainOfCall (c : SdkCall) : Index.Connector :=
  match c with
  | JsonRpcProvider_getBalance _ _ | Contract_balanceOf _ _ | Contract_decimals _
  | Contract_transfer _ _ _ | BrowserProvider_getSigner | Signer_sendTransaction _ _
  | Tx_wait | Ethers_parseEther _ | Ethers_parseUnits _ _ | Ethereum_request _ =>
      Index.EVM
  | New_PublicKey _ | Connection_getBalance _ | Connection_getLatestBlockhash
  | Connection_sendRawTransaction | Connection_confirmTransaction _ _
  | SystemProgram_transfer _ _ _ | Transaction_serialize | Solana_connect
  | Solana_signTransaction =>
      Index.SVM
  | CoinClient_checkBalance _ | AptosClient_getAccount _
  | AptosClient_getAccountResources _ | AptosClient_getAccountResource _ _
  | AptosClient_getLedgerInfo | AptosClient_waitForTransaction _ | Petra_isConnected
  | Petra_connect | Petra_account | Petra_signAndSubmitTransaction _ _ _ _ =>
      Index.MVM
  end.

Definition sameConnector (a b : Index.Connector) : bool :=
  match a, b with
  | Index.MVM, Index.MVM | Index.EVM, Index.EVM | Index.SVM, Index.SVM => true
  | _, _ => false
  end.

(** Every call of the trace goes to the SDK or extension of chain [c]. *)
Definition callsOnlyOn (c : Index.Connector) (events : list Event) : bool :=
  forallb (fun ev => match ev with
                     | Called call => sameConnector (chainOfCall call) c
                     | _ => true
                     end) events.

(** The notifications of a trace, in order. *)
Definition toasts (events : list Event) : list Event := filter isToast events.

(** The call with which a transfer routine waits for its transaction. *)
Definition isConfirmation (c : SdkCall) : bool :=
  match c with
  | Tx_wait => true
  | Connection_confirmTransaction _ commitment => (commitment =? "confirmed")%string
  | AptosClient_waitForTransaction _ => true
  | _ => false
  end.

Definition isSubmission (c : SdkCall) : bool :=
  match c with
  | Contract_transfer _ _ _ | Signer_sendTransaction _ _ => true
  | Connection_sendRawTransaction => true
  | Petra_signAndSubmitTransaction _ _ _ _ => true
  | _ => false
  end.

Definition hasTag (tag : string) (t : Token) : bool := (chain t =? tag)%string.

(** The values written to the in-flight flag, in order. *)
Fixpoint flagWrites (events : list Event) : list bool :=
  match events with
  | [] => []
  | SetFetchingBalances b :: rest => b :: flagWrites rest
  | _ :: rest => flagWrites rest
  end.

(** A string without line terminator. *)
Fixpoint singleLine (s : string) : bool :=
  match s with
  | EmptyString => true
  | String c r => negb (Js.isLineTerminator c) && singleLine r
  end.

Definition isConfirmationEvent (ev : Event) : bool :=
  match ev with
  | Called c => isConfirmation c
  | _ => false
  end.

(** A transaction is submitted and, later, its confirmation awaited. *)
Fixpoint submittedThenConfirmed (events : list Event) : bool :=
  match events with
  | [] => false
  | Called c :: rest =>
      if isSubmission c then existsb isConfirmationEvent rest
      else submittedThenConfirmed rest
  | _ :: rest => submittedThenConfirmed rest
  end.

(** A transfer routine that shows exactly one notification: the success
    notification when it returns [true], a failure notification when it
    returns [false]. *)
Definition notifiesOnce (m : M bool) : Prop :=
  exists title description variant,
    toasts (trace m) = [Toast title description variant] /\
    (result m = Returns true ->
     title = "Transfer Successful" /\ variant = DefaultVariant) /\
    (result m = Returns false -> variant = Destructive).

(** A run that returned [true] submitted a transaction and awaited its
    confirmation, and neither of the two calls was rejected. *)
Definition confirmedWhenTrue (m : M bool) : Prop :=
  result m = Returns true ->
  submittedThenConfirmed (trace m) = true /\
  forall c e, In (Rejected c e) (trace m) ->
    isSubmission c = false /\ isConfirmation c = false.

(** The account with which the extension answers [connectWallet], when
    it does. *)
Definition connectedAccount (c : Index.Connector) (W : World) (A : UiAnswers)
    : option string :=
  match c with
  | Index.EVM =>
      match window_ethereum W, eth_requestAccounts A with
      | Some _, Returns (account :: _) => Some account
      | _, _ => None
      end
  | Index.SVM =>
      match SVMWalletConnectorActions.getPhantomWallet W A with
      | Some phantom =>
          match sol_connect phantom with
          | Returns _ => Some (sol_publicKey phantom)
          | Throws _ => None
          end
      | None => None
      end
  | Index.MVM =>
      match window_petra W with
      | Some petra =>
          match petra_connect petra, petra_account petra with
          | Returns _, Returns account =>
              if (account =? "")%string then None else Some account
          | _, _ => None
          end
      | None => None
      end
  end.

(** The connection state of a connector that is connected as [account]. *)
Definition connectedAs (account : string) (st : Connection.State) : Connection.State :=
  {| Connection.isConnected := true;
     Connection.address := Some account;
     Connection.isInstalled := Connection.isInstalled st;
     Connection.fetchingBalances := Connection.fetchingBalances st |}.

Definition disconnected (st : Connection.State) : Connection.State :=
  {| Connection.isConnected := false;
     Connection.address := None;
     Connection.isInstalled := Connection.isInstalled st;
     Connection.fetchingBalances := Connection.fetchingBalances st |}.

Definition connectedToastOf (c : Index.Connector) : Event :=
  match c with
  | Index.EVM => Toast "Connected" "MetaMask connected successfully!" DefaultVariant
  | Index.SVM => Toast "Connected" "Phantom wallet connected successfully!" DefaultVariant
  | Index.MVM => Toast "Connected" "Petra Wallet connected successfully!" DefaultVariant
  end.

(** What the Disconnect button of each connector runs. *)
Definition disconnectButtonOf (c : Index.Connector) (W : World) (A : UiAnswers) : U unit :=
  match c with
  | Index.EVM => EVMWalletConnectorActions.handleDisconnect
  | Index.SVM => SVMWalletConnectorActions.disconnectWallet W A
  | Index.MVM => MVMWalletConnectorActions.disconnectWallet W A
  end.

Definition disconnectedToastOf (c : Index.Connector) : Event :=
  match c with
  | Index.EVM => Toast "Disconnected" "MetaMask disconnected" DefaultVariant
  | Index.SVM => Toast "Disconnected" "Phantom wallet disconnected" DefaultVariant
  | Index.MVM => Toast "Disconnected" "Petra Wallet disconnected" DefaultVariant
  end.

(** The connection check that the mount effect of each connector
    starts. *)
Definition checkConnectionStatusOf (c : Index.Connector) (W : World) (A : UiAnswers)
    : U unit :=
  match c with
  | Index.EVM => EVMWalletConnectorActions.checkAtMount W A
  | Index.SVM => SVMWalletConnectorActions.checkAtMount W A
  | Index.MVM => MVMWalletConnectorActions.checkAtMount W
  end.

(** What the extension answers to that check. *)
Inductive CheckAnswer :=
| Restored (account : string)
| CheckRejected (e : Thrown)
| NothingToRestore.

Definition checkAnswerOf (c : Index.Connector) (W : World) (A : UiAnswers)
    : CheckAnswer :=
  match c with
  | Index.EVM =>
      match window_ethereum W with
      | Some _ =>
          match eth_accounts A with
          | Returns (account :: _) => Restored account
          | Returns [] => NothingToRestore
          | Throws e => CheckRejected e
          end
      | None => NothingToRestore
      end
  | Index.SVM =>
      match SVMWalletConnectorActions.getPhantomWallet W A with
      | Some phantom =>
          if sol_isConnected phantom && negb (sol_publicKey phantom =? "")%string
          then Restored (sol_publicKey phantom)
          else NothingToRestore
      | None => NothingToRestore
      end
  | Index.MVM =>
      match window_petra W with
      | Some petra =>
          match petra_isConnected petra with
          | Returns true =>
              match petra_account petra with
              | Returns account =>
                  if (account =? "")%string then NothingToRestore else Restored account
              | Throws e => CheckRejected e
              end
          | Returns false => NothingToRestore
          | Throws e => CheckRejected e
          end
      | None => NothingToRestore
      end
  end.

Definition checkLogOf (c : Index.Connector) : Event :=
  match c with
  | Index.EVM => Console ConsoleError "MetaMask connection check failed:"
  | Index.SVM => Console ConsoleError "Phantom wallet connection check failed:"
  | Index.MVM => Console ConsoleError "Petra Wallet connection check failed:"
  end.

(** The listener of each connector for a change of account, run for a
    change to [account]. *)
Definition accountChangedOf (c : Index.Connector) (W : World)
    (account : string) (others : list string) : U unit :=
  match c with
  | Index.EVM => EVMWalletConnectorActions.accountsChangedListener W (account :: others)
  | Index.SVM => SVMWalletConnectorActions.accountChangedListener W (Some account)
  | Index.MVM => MVMWalletConnectorActions.accountChangeListener W account
  end.

(** An SDK of Solana that refuses what the real one refuses: a key that
    is not 32 to 44 characters of the base-58 alphabet, and an amount
    of lamports that is not a number. *)
Definition isBase58 (c : ascii) : bool :=
  let n := nat_of_ascii c in
  ((49 <=? n) && (n <=? 57)
   || (65 <=? n) && (n <=? 90) && negb (n =? 73) && negb (n =? 79)
   || (97 <=? n) && (n <=? 122) && negb (n =? 108))%nat.

Definition isKey (s : string) : bool :=
  forallb isBase58 (list_ascii_of_string s)
  && (32 <=? String.length s)%nat && (String.length s <=? 44)%nat.

Definition invalidKey : Thrown :=
  {| instanceofError := true; message := "Invalid public key input"; code := None |}.

Definition notANumber : Thrown :=
  {| instanceofError := true;
     message := "The number NaN cannot be converted to a BigInt because it is not an integer";
     code := None |}.

Definition strictSolana : SolanaWeb3 :=
  {| new_PublicKey := fun s => if isKey s then Returns tt else Throws invalidKey;
     connection_getBalance := fun _ => Returns 2500000000%float;
     connection_getLatestBlockhash := Returns "blockhash";
     connection_sendRawTransaction := Returns "signature";
     connection_confirmTransaction := fun _ => Returns tt;
     systemProgram_transfer := fun _ _ lamports =>
       if (lamports =? lamports)%float then Returns tt else Throws notANumber;
     transaction_serialize := Returns tt |}.

Definition strictOnline : World :=
  {| library := Scenario.sampleLibrary;
     window_ethereum := Some Scenario.metaMask;
     window_solana := Some Scenario.phantom;
     window_petra := Some Scenario.petra;
     ethers := Scenario.ethersOnline;
     solana := strictSolana;
     aptos := Scenario.aptosOnline |}.

Definition bob : string := "7xKXtg2CW87d97TXJSDpbD5jBkheTqA83TZRuJosgAsU".

(** * Properties *)

(** ** The aggregation view *)

Lemma Token_eq_dec (a b : Token) : {a = b} + {a <> b}.
Proof.
  decide equality; auto using string_dec, Z.eq_dec.
Defined.

Lemma handleSetTokenBalances_app (tokens : list Token) (chain_ : string)
    (prev : list Token) :
  Index.handleSetTokenBalances tokens chain_ prev
  = (filter (fun t => negb (chain t =? chain_)%string) prev ++ tokens)%list.
Proof. reflexivity. Qed.

(** The prior entries that survive an update are those of other chains. *)
Lemma survivor_has_other_tag (chain_ : string) (prev : list Token) (t : Token) :
  In t (filter (fun t => negb (chain t =? chain_)%string) prev) <->
  In t prev /\ chain t <> chain_.
Proof.
  rewrite filter_In, negb_true_iff, String.eqb_neq. reflexivity.
Qed.

Lemma count_occ_filter_keep (keep : Token -> bool) (l : list Token) (t : Token) :
  keep t = true ->
  count_occ Token_eq_dec (filter keep l) t = count_occ Token_eq_dec l t.
Proof.
  intros Hk. induction l as [|x l IH]; simpl; [reflexivity|].
  destruct (keep x) eqn:Hx; simpl.
  - destruct (Token_eq_dec x t); rewrite IH; reflexivity.
  - destruct (Token_eq_dec x t) as [->|_]; [congruence | exact IH].
Qed.

(** C3: a token of the prior list whose chain tag differs from the tag of
    the update is still in the list after [handleSetTokenBalances], as
    many times as before and ahead of the tokens of the update: an update
    of one chain drops no token of another chain. *)
Theorem handleSetTokenBalances_keeps_other_chains
    (tokens prev : list Token) (c : string) (t : Token) :
  In t prev -> chain t <> c ->
  In t (Index.handleSetTokenBalances tokens c prev) /\
  (count_occ Token_eq_dec prev t
   <= count_occ Token_eq_dec (Index.handleSetTokenBalances tokens c prev) t)%nat /\
  exists before after,
    Index.handleSetTokenBalances tokens c prev = (before ++ t :: after ++ tokens)%list.
Proof.
  intros Hin Hc.
  assert (Hkeep : In t (filter (fun t => negb (chain t =? c)%string) prev))
    by (apply survivor_has_other_tag; split; assumption).
  rewrite handleSetTokenBalances_app. repeat split.
  - apply in_or_app; left; exact Hkeep.
  - rewrite count_occ_app, count_occ_filter_keep.
    + lia.
    + apply negb_true_iff, String.eqb_neq; exact Hc.
  - destruct (in_split _ _ Hkeep) as (before & after & Heq).
    exists before, after. rewrite Heq, <- app_assoc. reflexivity.
Qed.

Lemma handleSetTokenBalances_keeps_other_chains_witness :
  let prev := [Scenario.sol; Scenario.celo] in
  In Scenario.sol (Index.handleSetTokenBalances [] "evm" prev) /\
  (count_occ Token_eq_dec prev Scenario.sol
   <= count_occ Token_eq_dec (Index.handleSetTokenBalances [] "evm" prev) Scenario.sol)%nat /\
  exists before after,
    Index.handleSetTokenBalances [] "evm" prev
    = (before ++ Scenario.sol :: after ++ [])%list.
Proof.
  apply (handleSetTokenBalances_keeps_other_chains [] [Scenario.sol; Scenario.celo]
           "evm" Scenario.sol).
  - simpl; left; reflexivity.
  - vm_compute; discriminate.
Defined.

(** ** Reasoning about runs *)

Ltac unfold_run :=
  unfold trace, result, bind, ret, try_catch, finally, call, emit, toast,
    console, throw in *.

(** Case analysis on the answer that decides the next step of a run. *)
Ltac case_on_answer :=
  match goal with
  | |- context [match ?x with _ => _ end] =>
      lazymatch x with
      | context [match _ with _ => _ end] => fail
      | _ => destruct x eqn:?
      end
  end.

Ltac run_cases := unfold_run; repeat (cbn; try case_on_answer).

(** ** The transfer dispatcher *)

(** C1: for a token whose chain tag is none of "evm", "svm" and "mvm",
    [transferTokens] returns [false] and its whole trace is the one
    failure notification "Unsupported chain": no call into a chain SDK
    or a wallet extension is made. *)
Theorem transferTokens_unsupported_chain (W : World) (params : TransferParams) :
  chain (token params) <> "evm" ->
  chain (token params) <> "svm" ->
  chain (token params) <> "mvm" ->
  Wallet.transferTokens W params
  = ([Toast "Error" "Unsupported chain" Destructive], Returns false)
  /\ callFree (trace (Wallet.transferTokens W params)) = true.
Proof.
  intros Hevm Hsvm Hmvm.
  apply String.eqb_neq in Hevm, Hsvm, Hmvm.
  unfold Wallet.transferTokens. rewrite Hevm, Hsvm, Hmvm.
  split; reflexivity.
Qed.

Lemma transferTokens_unsupported_chain_witness :
  let params := {| token := EVMWalletConnector.emptyToken;
                   toAddress := Scenario.alice; amount := "0.1" |} in
  Wallet.transferTokens Scenario.online params
  = ([Toast "Error" "Unsupported chain" Destructive], Returns false)
  /\ callFree (trace (Wallet.transferTokens Scenario.online params)) = true.
Proof.
  apply (transferTokens_unsupported_chain Scenario.online
           {| token := EVMWalletConnector.emptyToken;
              toAddress := Scenario.alice; amount := "0.1" |});
    vm_compute; discriminate.
Defined.

(** ** [getAllMVMTokenBalances] *)

(** C10: [getAllMVMTokenBalances] never returns a non-empty list.  When
    the account lookup fails it shows the "Account Not Found"
    notification and returns the empty list; when the resource fetch
    fails it logs and returns the empty list; when both succeed the
    resources are dropped and the function returns no value. *)
Theorem getAllMVMTokenBalances_never_lists_a_token (W : World) (walletAddress : string) :
  let run := Wallet.getAllMVMTokenBalances W walletAddress in
  (forall e, client_getAccount (aptos W) walletAddress = Throws e ->
     result run = Returns (Some []) /\
     In (Toast "Account Not Found"
           "This Aptos address does not exist on chain. Please fund it with a small amount of APT to activate."
           Destructive) (trace run)) /\
  (forall e, client_getAccount (aptos W) walletAddress = Returns tt ->
     client_getAccountResources (aptos W) walletAddress = Throws e ->
     result run = Returns (Some []) /\
     notifyFree (trace run) = true /\
     In (Console ConsoleError "Error fetching MVM token balances:") (trace run)) /\
  (forall resources, client_getAccount (aptos W) walletAddress = Returns tt ->
     client_getAccountResources (aptos W) walletAddress = Returns resources ->
     result run = Returns None) /\
  (forall tokens, result run = Returns (Some tokens) -> tokens = []) /\
  (result run = Returns (Some []) \/ result run = Returns None).
Proof.
  unfold Wallet.getAllMVMTokenBalances. cbv zeta.
  destruct (client_getAccount (aptos W) walletAddress) as [[]|e1] eqn:H1;
    destruct (client_getAccountResources (aptos W) walletAddress) as [rs|e2] eqn:H2;
    unfold_run; cbn; repeat split; intros; try discriminate; try congruence; auto;
    simpl; auto 10.
Qed.

(** ** The Solana transfer *)

(** The amount "3.0" is three billion lamports, which 2.5 SOL do not cover. *)
Lemma three_sol_exceed_the_balance :
  (2500000000 <? Js.parseFloat "3.0" * LAMPORTS_PER_SOL)%float = true.
Proof. vm_compute. reflexivity. Qed.

(** C7: a transfer of a token of chain "svm" with 9 decimals and amount
    "3.0", from a connected wallet (or one whose [connect] succeeds) that
    holds 2.5 SOL, fails the balance check: [transferTokens] returns
    [false] after the "Insufficient Balance" notification, and the only
    SDK call it makes besides a possible [connect] is the balance query;
    no transfer instruction is built and nothing is signed. *)
Theorem transferSOL_insufficient_balance
    (W : World) (params : TransferParams) (wallet : SolanaWalletProvider) :
  chain (token params) = "svm" ->
  decimals (token params) = 9 ->
  amount params = "3.0" ->
  window_solana W = Some wallet ->
  sol_isConnected wallet = true \/ sol_connect wallet = Returns tt ->
  connection_getBalance (solana W) (sol_publicKey wallet) = Returns 2500000000%float ->
  let run := Wallet.transferTokens W params in
  result run = Returns false /\
  In (Toast "Insufficient Balance" "You need at least 3.0 SOL." Destructive) (trace run) /\
  (forall c, In (Called c) (trace run) ->
     c = Solana_connect \/ c = Connection_getBalance (sol_publicKey wallet)) /\
  (forall from to lamports,
     ~ In (Called (SystemProgram_transfer from to lamports)) (trace run)) /\
  ~ In (Called Solana_signTransaction) (trace run).
Proof.
  intros Hchain _ Hamount Hwallet Hconn Hbal run. subst run.
  unfold Wallet.transferTokens, Wallet.transferSOL.
  rewrite Hchain, Hamount, Hwallet. cbn [String.eqb Ascii.eqb Bool.eqb].
  assert (Hrun :
    exists pre,
      (pre = [] \/ pre = [Called Solana_connect]) /\
      (if negb (sol_isConnected wallet)
       then call Solana_connect (sol_connect wallet) else ret tt)
      = (pre, Returns tt)).
  { destruct (sol_isConnected wallet) eqn:Hc; cbn.
    - exists []. split; [left|]; reflexivity.
    - destruct Hconn as [Hconn | Hconn]; [discriminate|].
      rewrite Hconn. exists [Called Solana_connect]. split; [right|]; reflexivity. }
  destruct Hrun as (pre & Hpre & ->).
  unfold_run. rewrite Hbal, three_sol_exceed_the_balance. cbn.
  destruct Hpre as [-> | ->]; cbn; repeat split;
    try (intros; intuition congruence); auto.
Qed.

Lemma transferSOL_insufficient_balance_witness :
  let run := Wallet.transferTokens Scenario.online
               {| token := Scenario.sol; toAddress := Scenario.alice; amount := "3.0" |} in
  result run = Returns false /\
  In (Toast "Insufficient Balance" "You need at least 3.0 SOL." Destructive) (trace run) /\
  (forall c, In (Called c) (trace run) ->
     c = Solana_connect \/ c = Connection_getBalance (sol_publicKey Scenario.phantom)) /\
  (forall from to lamports,
     ~ In (Called (SystemProgram_transfer from to lamports)) (trace run)) /\
  ~ In (Called Solana_signTransaction) (trace run).
Proof.
  apply (transferSOL_insufficient_balance Scenario.online
           {| token := Scenario.sol; toAddress := Scenario.alice; amount := "3.0" |}
           Scenario.phantom); try reflexivity.
  left; reflexivity.
Defined.

(** ** The balance helpers *)

Lemma getSolanaBalance_of_empty_account :
  (0 / LAMPORTS_PER_SOL)%float = 0%float.
Proof. vm_compute. reflexivity. Qed.




(** ** The balance fetchers *)

(** A fetch requested while another one is in flight is dropped. *)
Lemma fetch_in_flight_is_dropped (c : Index.Connector) (W : World) (account : string) :
  fetchTokenBalancesOf c W true account = ([], Returns tt).
Proof. destruct c; reflexivity. Qed.

Lemma tokenOfCoinStore_returns (W : World) (r : Resource) :
  exists tr t,
    MVMWalletConnector.tokenOfCoinStore W r = (tr, Returns t) /\
    forallb isMetadataEvent tr = true /\
    isTokenOf W r t.
Proof.
  unfold isTokenOf, metadataLookup, MVMWalletConnector.tokenOfCoinStore,
    MVMWalletConnector.coinMetadata.
  destruct (client_getAccountResource (aptos W)
              (Js.splitHead (MVMWalletConnector.tokenTypeOf r) "::")
              ("0x1::coin::CoinInfo<" ++ MVMWalletConnector.tokenTypeOf r ++ ">"))
    as [info|e]; unfold_run; cbn.
  - eexists _, _. repeat split;
      match goal with H : exists _, _ |- _ => destruct H; discriminate end.
  - eexists _, _. repeat split.
Qed.

Lemma promiseAllMap_tokens (W : World) (stores : list Resource) :
  exists tr tokens,
    promiseAllMap (MVMWalletConnector.tokenOfCoinStore W) stores = (tr, Returns tokens) /\
    forallb isMetadataEvent tr = true /\
    Forall2 (isTokenOf W) stores tokens.
Proof.
  induction stores as [|r stores IH].
  - exists [], []. repeat split. constructor.
  - destruct (tokenOfCoinStore_returns W r) as (tr1 & t & H1 & Hev1 & Ht).
    destruct IH as (tr2 & ts & H2 & Hev2 & Hts).
    exists (tr1 ++ tr2)%list, (t :: ts). split; [|split].
    + cbn [promiseAllMap]. rewrite H1. unfold bind at 1. rewrite H2.
      unfold_run. cbn. rewrite !app_nil_r. reflexivity.
    + rewrite forallb_app, Hev1, Hev2. reflexivity.
    + constructor; assumption.
Qed.

(** The run of the Aptos fetch when the enumeration answers. *)
Lemma mvm_fetch_when_enumerated (W : World) (account : string) (resources : list Resource) :
  client_getAccountResources (aptos W) account = Returns resources ->
  exists tr tokens,
    MVMWalletConnector.fetchTokenBalances W false account
    = ([Console ConsoleLog "Fetching token balances for MVM wallet:";
        SetFetchingBalances true;
        Called (AptosClient_getAccountResources account);
        Console ConsoleLog "Account resources:";
        Console ConsoleLog "Found coin stores:"]
       ++ tr
       ++ [Console ConsoleLog "Setting token balances:";
           SetTokenBalances tokens;
           SetFetchingBalances false], Returns tt)%list /\
    forallb isMetadataEvent tr = true /\
    Forall2 (isTokenOf W) (filter MVMWalletConnector.isCoinStore resources) tokens.
Proof.
  intros Hres.
  destruct (promiseAllMap_tokens W (filter MVMWalletConnector.isCoinStore resources))
    as (tr & tokens & Hall & Hev & Htok).
  exists tr, tokens. split; [|split; assumption].
  unfold MVMWalletConnector.fetchTokenBalances. rewrite Hres.
  unfold_run. cbn. rewrite Hall. cbn. rewrite <- app_assoc. reflexivity.
Qed.

Lemma reported_app (t1 t2 : list Event) :
  reported (t1 ++ t2) = (reported t1 ++ reported t2)%list.
Proof.
  induction t1 as [|ev t1 IH]; [reflexivity|].
  destruct ev; cbn; rewrite ?IH; reflexivity.
Qed.

Lemma metadata_events_report_nothing (tr : list Event) :
  forallb isMetadataEvent tr = true -> reported tr = [].
Proof.
  induction tr as [|ev tr IH]; [reflexivity|].
  cbn. intros H. apply andb_true_iff in H as [Hev Htr].
  destruct ev; try discriminate; cbn; auto.
Qed.

Lemma Forall2_pick {A B} (R : A -> B -> Prop) (l : list A) (l' : list B) (x : A) :
  Forall2 R l l' -> In x l -> exists y, In y l' /\ R x y.
Proof.
  induction 1 as [|a b l l' Hab _ IH]; intros Hin; [contradiction|].
  destruct Hin as [<- | Hin].
  - exists b. split; [left; reflexivity | exact Hab].
  - destruct (IH Hin) as (y & Hy & Hxy). exists y. split; [right|]; assumption.
Qed.

(** C6: when the enumeration of the Aptos fetch answers, the fetch
    reports one list with one token per coin store, in the order of the
    coin stores; the token of a coin store carries its coin type as id
    and, when the metadata lookup of that coin store throws, the symbol
    "UNKNOWN" and 8 decimals.  A failing lookup therefore neither drops
    its own token nor the token of any other coin store, and the fetch
    returns normally. *)
Theorem mvm_fetch_metadata_fallback (W : World) (account : string)
    (resources : list Resource) :
  client_getAccountResources (aptos W) account = Returns resources ->
  let run := MVMWalletConnector.fetchTokenBalances W false account in
  result run = Returns tt /\
  exists tokens,
    reported (trace run) = [tokens] /\
    Forall2 (isTokenOf W) (filter MVMWalletConnector.isCoinStore resources) tokens /\
    forall r, In r resources -> MVMWalletConnector.isCoinStore r = true ->
      (exists e, metadataLookup W r = Throws e) ->
      exists t, In t tokens /\ id t = MVMWalletConnector.tokenTypeOf r /\
                symbol t = "UNKNOWN" /\ decimals t = 8.
Proof.
  intros Hres run. subst run.
  destruct (mvm_fetch_when_enumerated W account resources Hres)
    as (tr & tokens & -> & Hev & Htok).
  split; [reflexivity|]. exists tokens. split; [|split].
  - unfold trace; cbn [fst app reported].
    rewrite reported_app, (metadata_events_report_nothing tr Hev). reflexivity.
  - exact Htok.
  - intros r Hin Hstore Hthrows.
    assert (Hr : In r (filter MVMWalletConnector.isCoinStore resources))
      by (apply filter_In; split; assumption).
    destruct (Forall2_pick (isTokenOf W) _ _ r Htok Hr) as (t & Ht & Hid & _ & _ & Hfb).
    destruct (Hfb Hthrows) as (Hs & _ & Hd).
    exists t. repeat split; assumption.
Qed.

Lemma mvm_fetch_metadata_fallback_witness :
  let run := MVMWalletConnector.fetchTokenBalances Scenario.online false Scenario.alice in
  result run = Returns tt /\
  exists tokens,
    reported (trace run) = [tokens] /\
    exists t, In t tokens /\ id t = "0xbeef::moon::MoonCoin" /\
              symbol t = "UNKNOWN" /\ decimals t = 8.
Proof.
  destruct (mvm_fetch_metadata_fallback Scenario.online Scenario.alice
              [Scenario.accountResource; Scenario.moonStore; Scenario.aptStore]
              eq_refl) as (Hres & tokens & Hrep & _ & Hfallback).
  split; [exact Hres|]. exists tokens. split; [exact Hrep|].
  apply (Hfallback Scenario.moonStore).
  - right; left; reflexivity.
  - reflexivity.
  - exists Scenario.rejection. reflexivity.
Defined.

(** Splits a concrete trace before its last three events. *)
Ltac split_before_catch :=
  first [ exists [] ; repeat split ; reflexivity
        | eexists [_] ; repeat split ; reflexivity
        | eexists [_; _] ; repeat split ; reflexivity
        | eexists [_; _; _] ; repeat split ; reflexivity
        | eexists [_; _; _; _] ; repeat split ; reflexivity
        | eexists [_; _; _; _; _] ; repeat split ; reflexivity
        | eexists [_; _; _; _; _; _] ; repeat split ; reflexivity
        | eexists [_; _; _; _; _; _; _] ; repeat split ; reflexivity ].

(** The shape of a fetch that failed as a whole: what came before the
    [catch] clause reports nothing and notifies nobody, and the clause
    logs, substitutes the marker and lets [finally] clear the flag. *)
Lemma failed_fetch_run (c : Index.Connector) (W : World) (account : string) :
  fetchFails c W account ->
  exists before,
    fetchTokenBalancesOf c W false account
    = ((before ++ [errorLogOf c;
                   SetTokenBalances [errorMarkerOf c];
                   SetFetchingBalances false])%list, Returns tt) /\
    reported before = [] /\
    notifyFree before = true.
Proof.
  destruct c; cbn [fetchFails fetchTokenBalancesOf errorLogOf errorMarkerOf].
  - (* Aptos *)
    intros [e Hin].
    destruct (client_getAccountResources (aptos W) account) as [resources|e'] eqn:Hres.
    + exfalso.
      destruct (mvm_fetch_when_enumerated W account resources Hres)
        as (tr & tokens & Hrun & Hev & _).
      rewrite Hrun in Hin. unfold trace in Hin; cbn [fst] in Hin.
      apply in_app_or in Hin as [Hin | Hin];
        [cbn in Hin; intuition discriminate|].
      apply in_app_or in Hin as [Hin | Hin];
        [|cbn in Hin; intuition discriminate].
      rewrite forallb_forall in Hev. specialize (Hev _ Hin). discriminate.
    + unfold MVMWalletConnector.fetchTokenBalances. rewrite Hres.
      unfold_run. cbn. split_before_catch.
  - (* EVM *)
    unfold EVMWalletConnector.fetchTokenBalances.
    intros [Hnone | (call & e & Hin)].
    + rewrite Hnone. unfold_run. cbn. split_before_catch.
    + revert Hin. run_cases; intros Hin;
        try (exfalso; cbn in Hin; intuition discriminate);
        split_before_catch.
  - (* Solana *)
    unfold SVMWalletConnector.fetchTokenBalances.
    intros (call & e & Hin).
    revert Hin. run_cases; intros Hin;
      try (exfalso; cbn in Hin; intuition discriminate);
      split_before_catch.
Qed.

(** A fetch that the environment makes fail shows the rejection in its
    run. *)
Lemma fetchRejected_fails (c : Index.Connector) (W : World) (account : string) :
  fetchRejected c W account = true -> fetchFails c W account.
Proof.
  destruct c; cbn [fetchRejected fetchFails].
  - unfold MVMWalletConnector.fetchTokenBalances.
    destruct (client_getAccountResources (aptos W) account) as [resources|e];
      [discriminate|].
    intros _. exists e. unfold_run. cbn. auto 10.
  - unfold EVMWalletConnector.fetchTokenBalances.
    destruct (window_ethereum W) as [ethereum|]; [|left; reflexivity].
    intros Hrejected. right.
    destruct (eth_chainId ethereum) as [chainId|e].
    + destruct (provider_getBalance _ _ _) as [balance|e] eqn:Hbalance;
        [discriminate|].
      eexists _, e. unfold_run. cbn. rewrite Hbalance. cbn. auto 10.
    + eexists _, e. unfold_run. cbn. auto 10.
  - unfold SVMWalletConnector.fetchTokenBalances.
    destruct (new_PublicKey (solana W) account) as [[]|e].
    + destruct (connection_getBalance (solana W) account) as [lamports|e];
        [discriminate|].
      intros _. eexists _, e. unfold_run. cbn. auto 10.
    + intros _. eexists _, e. unfold_run. cbn. auto 10.
Qed.


(** C4: for each of the three fetchers, whenever the environment makes
    the fetch fail as a whole (a call of the fetch other than a
    per-token metadata lookup is rejected), the fetcher hands exactly
    one list to [setTokenBalances], holding exactly one token, the error
    marker of the connector, whose symbol is "ERR" and whose balance is
    "0"; the fetcher itself returns normally, so it neither reports an
    empty list nor throws. *)
Theorem failed_fetch_reports_error_marker
    (c : Index.Connector) (W : World) (account : string) :
  fetchRejected c W account = true ->
  let run := fetchTokenBalancesOf c W false account in
  result run = Returns tt /\
  reported (trace run) = [[errorMarkerOf c]] /\
  symbol (errorMarkerOf c) = "ERR" /\
  balance (errorMarkerOf c) = "0".
Proof.
  intros Hrejected run. subst run.
  destruct (failed_fetch_run c W account (fetchRejected_fails c W account Hrejected))
    as (before & -> & Hrep & _).
  split; [reflexivity|]. split.
  - unfold trace; cbn [fst]. rewrite reported_app, Hrep.
    destruct c; reflexivity.
  - destruct c; split; reflexivity.
Qed.

Lemma failed_fetch_reports_error_marker_witness :
  let run := SVMWalletConnector.fetchTokenBalances Scenario.offline false
               (sol_publicKey Scenario.phantom) in
  result run = Returns tt /\
  reported (trace run) = [[SVMWalletConnector.emptyToken]] /\
  symbol SVMWalletConnector.emptyToken = "ERR" /\
  balance SVMWalletConnector.emptyToken = "0".
Proof.
  apply (failed_fetch_reports_error_marker Index.SVM Scenario.offline
           (sol_publicKey Scenario.phantom)).
  reflexivity.
Defined.




(** ** Replacement of a chain's entries *)

Lemma svm_connector_reports_own_tag :
  reportsOwnTag SVMWalletConnector.fetchTokenBalances (Index.chainTag Index.SVM).
Proof.
  intros W inFlight account tokens t.
  unfold SVMWalletConnector.fetchTokenBalances.
  run_cases; cbn; intros Hts Ht;
    repeat (destruct Hts as [<- | Hts]; [destruct Ht as [<- | []]; reflexivity|]);
    contradiction.
Qed.

Lemma evm_connector2_reports_own_tag :
  reportsOwnTag EVMWalletConnector2.fetchTokenBalances (Index.chainTag Index.EVM).
Proof.
  intros W inFlight account tokens t.
  unfold EVMWalletConnector2.fetchTokenBalances.
  run_cases; cbn; intros Hts Ht;
    repeat (destruct Hts as [<- | Hts]; [destruct Ht as [<- | []]; reflexivity|]);
    contradiction.
Qed.

Lemma mvm_connector_reports_own_tag :
  reportsOwnTag MVMWalletConnector.fetchTokenBalances (Index.chainTag Index.MVM).
Proof.
  intros W [|] account tokens t; [intros []|].
  destruct (client_getAccountResources (aptos W) account) as [resources|e] eqn:Hres.
  - destruct (mvm_fetch_when_enumerated W account resources Hres)
      as (tr & ts & -> & Hev & Htok).
    unfold trace; cbn [fst app reported].
    rewrite reported_app, (metadata_events_report_nothing tr Hev).
    cbn. intros [<- | []] Ht.
    clear - Htok Ht. induction Htok as [|r t' rs ts' Hrt _ IH]; [contradiction|].
    destruct Ht as [<- | Ht]; [apply Hrt | exact (IH Ht)].
  - unfold MVMWalletConnector.fetchTokenBalances. rewrite Hres.
    unfold_run. cbn. intros [<- | []] [<- | []]. reflexivity.
Qed.

(** When the prior entries of a chain carry its tag, an update for that
    chain leaves none of them among the entries it keeps. *)
Lemma tagged_entries_are_replaced (tokens prev : list Token) (tag : string) (t : Token) :
  chain t = tag ->
  ~ In t (filter (fun t => negb (chain t =? tag)%string) prev).
Proof.
  intros Htag Hin. apply survivor_has_other_tag in Hin as [_ Hne]. contradiction.
Qed.

Lemma deliver_app (c : Index.Connector) (t1 t2 : list Event) (allTokens : list Token) :
  Index.deliver c (t1 ++ t2) allTokens = Index.deliver c t2 (Index.deliver c t1 allTokens).
Proof.
  revert allTokens. induction t1 as [|ev t1 IH]; intros allTokens; [reflexivity|].
  destruct ev; cbn; apply IH.
Qed.

Lemma deliver_silent (c : Index.Connector) (events : list Event) (allTokens : list Token) :
  reported events = [] -> Index.deliver c events allTokens = allTokens.
Proof.
  induction events as [|ev events IH]; [reflexivity|].
  destruct ev; cbn; auto; discriminate.
Qed.

(** Whatever the environment, the marker of a failed MetaMask fetch
    enters the list and is kept by every later update for "evm". *)
Lemma evm_error_marker_is_never_replaced
    (W : World) (account : string) (prev later : list Token) :
  fetchFails Index.EVM W account ->
  let afterFailure :=
    Index.deliver Index.EVM
      (trace (EVMWalletConnector.fetchTokenBalances W false account)) prev in
  In EVMWalletConnector.emptyToken afterFailure /\
  In EVMWalletConnector.emptyToken
    (Index.handleSetTokenBalances later (Index.chainTag Index.EVM) afterFailure).
Proof.
  intros Hfails afterFailure.
  assert (Hin : In EVMWalletConnector.emptyToken afterFailure).
  { subst afterFailure.
    destruct (failed_fetch_run Index.EVM W account Hfails) as (before & Hrun & Hrep & _).
    cbn [fetchTokenBalancesOf errorLogOf errorMarkerOf] in Hrun. rewrite Hrun.
    unfold trace; cbn [fst]. rewrite deliver_app, (deliver_silent _ before _ Hrep).
    cbn. unfold Index.handleSetTokenBalances.
    apply in_or_app; right; left; reflexivity. }
  split; [exact Hin|].
  rewrite handleSetTokenBalances_app. apply in_or_app; left.
  apply survivor_has_other_tag. split; [exact Hin | discriminate].
Qed.

(** C2 at its failing input: the MetaMask connector fails one fetch and
    succeeds at the next.  The error marker it reported first, tagged
    "ethereum", is not among the entries that the update for "evm"
    replaces: it stays in the list next to the fresh balance, and stays
    even when the connector reports the empty list on disconnect. *)
Theorem evm_error_marker_outlives_updates :
  let failed := EVMWalletConnector.fetchTokenBalances Scenario.offline false Scenario.alice in
  let fetched := EVMWalletConnector.fetchTokenBalances Scenario.online false Scenario.alice in
  let afterFailure := Index.deliver Index.EVM (trace failed) [] in
  let afterFetch := Index.deliver Index.EVM (trace fetched) afterFailure in
  let afterDisconnect :=
    Index.deliver Index.EVM (trace EVMWalletConnector.handleDisconnect) afterFetch in
  reported (trace failed) = [[EVMWalletConnector.emptyToken]] /\
  afterFailure = [EVMWalletConnector.emptyToken] /\
  afterFetch = [EVMWalletConnector.emptyToken; Scenario.celo] /\
  afterDisconnect = [EVMWalletConnector.emptyToken] /\
  chain EVMWalletConnector.emptyToken <> Index.chainTag Index.EVM /\
  chain EVMWalletConnector2.errorToken = Index.chainTag Index.EVM.
Proof.
  vm_compute. repeat split. discriminate.
Qed.

(** ** Totality of the transfer routines *)

Lemma strictlyTotal_total (m : M bool) : strictlyTotalTransfer m -> totalTransfer m.
Proof.
  intros (b & Hb & Hn & Hr). exists b. split; [exact Hb|]. split; [exact Hn|].
  intros c e Hin. left. exact (Hr c e Hin).
Qed.

Ltac rejected_in_trace Hin :=
  cbn in Hin;
  repeat (destruct Hin as [Hin | Hin]; [try discriminate Hin|]);
  try contradiction.

Ltac solve_strictly_total :=
  eexists; split; [reflexivity|]; split;
  [ intros Hb; try discriminate Hb; reflexivity
  | intros ? ? Hin;
    first [ reflexivity | solve [exfalso; rejected_in_trace Hin] ] ].

Lemma transferSOL_total (W : World) (toAddress amount : string) :
  strictlyTotalTransfer (Wallet.transferSOL W toAddress amount).
Proof.
  unfold strictlyTotalTransfer, Wallet.transferSOL.
  run_cases; solve_strictly_total.
Qed.

Lemma transferMVMToken_total (W : World) (token : Token) (toAddress amount : string) :
  strictlyTotalTransfer (Wallet.transferMVMToken W token toAddress amount).
Proof.
  unfold strictlyTotalTransfer, Wallet.transferMVMToken.
  run_cases; solve_strictly_total.
Qed.

Lemma isUnrecognizedChain_code (e : Thrown) :
  Wallet.isUnrecognizedChain e = true -> code e = Some 4902.
Proof.
  unfold Wallet.isUnrecognizedChain.
  destruct (code e) as [z|]; [|discriminate].
  intros H. apply Z.eqb_eq in H. congruence.
Qed.

Ltac solve_total :=
  eexists; split; [reflexivity|]; split;
  [ intros Hb; try discriminate Hb; reflexivity
  | intros ? ? Hin;
    first [ left; reflexivity
          | solve [exfalso; rejected_in_trace Hin] ] ].

Lemma transferERC20_total (W : World) (tokenAddress toAddress amount : string) :
  totalTransfer (Wallet.transferERC20 W tokenAddress toAddress amount).
Proof.
  unfold totalTransfer, Wallet.transferERC20.
  destruct (window_ethereum W) as [ethereum|].
  2: { unfold_run; cbn. solve_total. }
  destruct (wallet_switchEthereumChain ethereum) as [[]|switchError] eqn:Hswitch.
  - (* the network is switched at once: any later rejection fails the transfer *)
    run_cases; solve_total.
  - destruct (Wallet.isUnrecognizedChain switchError) eqn:H4902.
    + (* code 4902: the network is added and the transfer goes on *)
      pose proof (isUnrecognizedChain_code _ H4902) as Hcode.
      unfold_run. cbn. rewrite H4902.
      repeat (cbn; try case_on_answer);
        (eexists; split; [reflexivity|]; split;
         [ intros Hb; try discriminate Hb; reflexivity
         | intros ? ? Hin;
           first [ left; reflexivity
                 | right; cbn in Hin;
                   repeat (destruct Hin as [Hin | Hin]; [try discriminate Hin|]);
                   try contradiction;
                   injection Hin as <- <-; split; [reflexivity | exact Hcode] ] ]).
    + unfold_run. cbn. rewrite H4902. cbn. solve_total.
Qed.

Lemma transferTokens_total (W : World) (params : TransferParams) :
  totalTransfer (Wallet.transferTokens W params).
Proof.
  unfold Wallet.transferTokens.
  destruct (chain (token params) =? "evm")%string; [apply transferERC20_total|].
  destruct (chain (token params) =? "svm")%string;
    [apply strictlyTotal_total, transferSOL_total|].
  destruct (chain (token params) =? "mvm")%string;
    [apply strictlyTotal_total, transferMVMToken_total|].
  unfold totalTransfer; unfold_run; cbn. solve_total.
Qed.

(** C8, as stated, fails on the EVM transfer: the extension rejects the
    request to switch the network with code 4902, the routine adds the
    network and goes on, and the transfer returns [true] although a call
    raised an error. *)
Lemma rejected_switch_does_not_fail_the_transfer :
  let run := Wallet.transferTokens Scenario.onlineWithoutCelo
               {| token := Scenario.celo; toAddress := Scenario.alice; amount := "0.1" |} in
  In (Rejected (Ethereum_request "wallet_switchEthereumChain") Scenario.unrecognizedChain)
    (trace run) /\
  result run = Returns true /\
  ~ strictlyTotalTransfer run.
Proof.
  cbv zeta. split; [|split].
  - vm_compute. right; left; reflexivity.
  - reflexivity.
  - intros (b & Hb & _ & Hr).
    assert (Hfalse : b = false).
    { apply (Hr (Ethereum_request "wallet_switchEthereumChain") Scenario.unrecognizedChain).
      vm_compute. right; left; reflexivity. }
    subst b. vm_compute in Hb. discriminate Hb.
Qed.

(** C8, amended: [transferTokens] and the three chain-specific routines
    are total.  For every input and every answer or error of the SDK and
    extension calls each of them returns a boolean and throws nothing;
    [false] always comes with a failure notification; and an error
    raised by an underlying call makes the result [false], with one
    exception by design: the EVM transfer recovers from a rejection with
    code 4902 of its request to switch the network, by adding the
    network and switching again, and may then return [true]. *)
Theorem transfer_routines_are_total
    (W : World) (params : TransferParams) (token : Token)
    (tokenAddress toAddress amount : string) :
  totalTransfer (Wallet.transferTokens W params) /\
  totalTransfer (Wallet.transferERC20 W tokenAddress toAddress amount) /\
  strictlyTotalTransfer (Wallet.transferSOL W toAddress amount) /\
  strictlyTotalTransfer (Wallet.transferMVMToken W token toAddress amount).
Proof.
  split; [apply transferTokens_total|].
  split; [apply transferERC20_total|].
  split; [apply transferSOL_total | apply transferMVMToken_total].
Qed.

(** ** Examples *)

Example parseFloat_examples :
  Js.parseFloat "3.0" = 3%float /\
  Js.parseFloat "  -2.5e1 SOL" = (-25)%float /\
  Js.parseFloat ".5" = 0.5%float /\
  Js.parseFloat "abc" = nan /\
  (Js.parseFloat "0.1" * LAMPORTS_PER_SOL)%float = 100000000%float.
Proof. vm_compute. repeat split. Qed.

Example parseInt_examples :
  Js.parseInt "0xaef3" 16 = 44787%float /\
  Js.parseInt "100000000" 0 = 100000000%float /\
  Js.parseInt "12px" 0 = 12%float /\
  Js.parseInt "" 0 = nan.
Proof. vm_compute. repeat split. Qed.

Example tokenType_examples :
  MVMWalletConnector.tokenTypeOf Scenario.aptStore = "0x1::aptos_coin::AptosCoin" /\
  Js.matchAngle "0x1::coin::CoinStore<0x1::a::B<0x2::c::D>>" = Some "0x1::a::B<0x2::c::D>" /\
  Js.matchAngle "0x1::account::Account" = None /\
  Js.splitHead "0xbeef::moon::MoonCoin" "::" = "0xbeef".
Proof. vm_compute. repeat split. Qed.

Example mvm_fetch_online :
  reported (trace (MVMWalletConnector.fetchTokenBalances Scenario.online false Scenario.alice))
  = [[ {| id := "0xbeef::moon::MoonCoin"; symbol := "UNKNOWN"; name := "Unknown Token";
          balance := "7e-8"; decimals := 8; address := "0xbeef::moon::MoonCoin";
          chain := "mvm"; logoURI := ""; priceUSD := "0" |};
       {| id := "0x1::aptos_coin::AptosCoin"; symbol := "APT"; name := "Aptos Coin";
          balance := "1"; decimals := 8; address := "0x1::aptos_coin::AptosCoin";
          chain := "mvm"; logoURI := ""; priceUSD := "0" |} ]].
Proof. vm_compute. reflexivity. Qed.

Example svm_transfer_within_balance :
  Wallet.transferTokens Scenario.online
    {| token := Scenario.sol; toAddress := Scenario.alice; amount := "2.5" |}
  = ([Called (Connection_getBalance (sol_publicKey Scenario.phantom));
      Called (New_PublicKey Scenario.alice);
      Called (SystemProgram_transfer (sol_publicKey Scenario.phantom) Scenario.alice
                2500000000%float);
      Called Connection_getLatestBlockhash;
      Called Solana_signTransaction;
      Called Transaction_serialize;
      Called Connection_sendRawTransaction;
      Called (Connection_confirmTransaction "signature" "confirmed");
      Toast "Transfer Successful" "Transferred 2.5 SOL to 0x5290...9EE7" DefaultVariant],
     Returns true).
Proof. vm_compute. reflexivity. Qed.

Example evm_native_transfer :
  Wallet.transferTokens Scenario.online
    {| token := Scenario.celo; toAddress := Scenario.alice; amount := "0.1" |}
  = ([Called (Ethereum_request "wallet_switchEthereumChain");
      Called BrowserProvider_getSigner;
      Called (Ethers_parseEther "0.1");
      Called (Signer_sendTransaction Scenario.alice 100000000000000000);
      Called Tx_wait;
      Toast "Transfer Successful" "Transferred 0.1 to 0x5290...9EE7" DefaultVariant],
     Returns true).
Proof. vm_compute. reflexivity. Qed.

Example getAllMVMTokenBalances_online :
  result (Wallet.getAllMVMTokenBalances Scenario.online Scenario.alice) = Returns None.
Proof. reflexivity. Qed.

(** * Further properties *)

(** ** The merge of the aggregation view *)

Lemma filter_tag_of_tagged (tag : string) (tokens : list Token) :
  Forall (fun t => chain t = tag) tokens ->
  filter (fun t => (chain t =? tag)%string) tokens = tokens /\
  filter (fun t => negb (chain t =? tag)%string) tokens = [].
Proof.
  induction 1 as [|t tokens Ht _ [IH1 IH2]]; [split; reflexivity|].
  cbn. apply String.eqb_eq in Ht. rewrite Ht. cbn.
  rewrite IH1, IH2. split; reflexivity.
Qed.

Lemma filter_tag_of_survivors (tag : string) (prev : list Token) :
  filter (fun t => (chain t =? tag)%string)
    (filter (fun t => negb (chain t =? tag)%string) prev) = [].
Proof.
  induction prev as [|t prev IH]; [reflexivity|].
  cbn. destruct (chain t =? tag)%string eqn:E; cbn; [exact IH|].
  rewrite E. exact IH.
Qed.

Lemma filter_idem {A} (f : A -> bool) (l : list A) : filter f (filter f l) = filter f l.
Proof.
  induction l as [|x l IH]; [reflexivity|].
  cbn. destruct (f x) eqn:E; cbn; rewrite ?E, IH; reflexivity.
Qed.

(** X1: when the tokens of an update carry the tag of the update, the
    entries of that tag in the merged list are exactly the tokens of
    the update, in their order, and the entries of every other tag are
    those of the prior list, in their order. *)
Theorem update_replaces_the_entries_of_its_tag
    (tokens prev : list Token) (tag : string) :
  Forall (fun t => chain t = tag) tokens ->
  filter (hasTag tag) (Index.handleSetTokenBalances tokens tag prev) = tokens /\
  filter (fun t => negb (hasTag tag t)) (Index.handleSetTokenBalances tokens tag prev)
  = filter (fun t => negb (hasTag tag t)) prev.
Proof.
  intros Htag. destruct (filter_tag_of_tagged tag tokens Htag) as [Hkeep Hdrop].
  rewrite handleSetTokenBalances_app, !filter_app. unfold hasTag.
  rewrite filter_tag_of_survivors, Hkeep, Hdrop, filter_idem, app_nil_r.
  split; reflexivity.
Qed.

Lemma update_replaces_the_entries_of_its_tag_witness :
  filter (hasTag "svm")
    (Index.handleSetTokenBalances [Scenario.sol] "svm"
       [SVMWalletConnector.emptyToken; Scenario.celo]) = [Scenario.sol] /\
  filter (fun t => negb (hasTag "svm" t))
    (Index.handleSetTokenBalances [Scenario.sol] "svm"
       [SVMWalletConnector.emptyToken; Scenario.celo])
  = filter (fun t => negb (hasTag "svm" t)) [SVMWalletConnector.emptyToken; Scenario.celo].
Proof.
  apply (update_replaces_the_entries_of_its_tag [Scenario.sol]
           [SVMWalletConnector.emptyToken; Scenario.celo] "svm").
  repeat constructor.
Defined.

(** X2: a later update for a tag overrides an earlier one whose tokens
    carried that tag: the list is the one the later update alone
    produces.  In particular a repeated report changes nothing. *)
Theorem later_update_overrides_earlier
    (earlier later prev : list Token) (tag : string) :
  Forall (fun t => chain t = tag) earlier ->
  Index.handleSetTokenBalances later tag
    (Index.handleSetTokenBalances earlier tag prev)
  = Index.handleSetTokenBalances later tag prev.
Proof.
  intros Htag. destruct (filter_tag_of_tagged tag earlier Htag) as [_ Hdrop].
  rewrite !handleSetTokenBalances_app, filter_app, Hdrop, filter_idem, app_nil_r.
  reflexivity.
Qed.

Lemma later_update_overrides_earlier_witness :
  Index.handleSetTokenBalances [Scenario.sol] "svm"
    (Index.handleSetTokenBalances [SVMWalletConnector.emptyToken] "svm" [Scenario.celo])
  = Index.handleSetTokenBalances [Scenario.sol] "svm" [Scenario.celo].
Proof.
  apply (later_update_overrides_earlier [SVMWalletConnector.emptyToken]
           [Scenario.sol] [Scenario.celo] "svm").
  repeat constructor.
Defined.

Lemma filter_comm {A} (f g : A -> bool) (l : list A) :
  filter f (filter g l) = filter g (filter f l).
Proof.
  induction l as [|x l IH]; [reflexivity|].
  cbn. destruct (f x) eqn:F, (g x) eqn:G; cbn; rewrite ?F, ?G, IH; reflexivity.
Qed.

Lemma filter_other_tag (tag other : string) (tokens : list Token) :
  other <> tag ->
  Forall (fun t => chain t = other) tokens ->
  filter (fun t => negb (chain t =? tag)%string) tokens = tokens.
Proof.
  intros Hne. induction 1 as [|t tokens Ht _ IH]; [reflexivity|].
  cbn. rewrite Ht. apply String.eqb_neq in Hne. rewrite Hne. cbn. rewrite IH.
  reflexivity.
Qed.

(** X3: updates of two different chains commute up to the order of the
    rows: when each update's tokens carry its own tag, applying the two
    in either order gives the same entries, as a permutation. *)
Theorem updates_of_two_chains_commute
    (tokens1 tokens2 prev : list Token) (tag1 tag2 : string) :
  tag1 <> tag2 ->
  Forall (fun t => chain t = tag1) tokens1 ->
  Forall (fun t => chain t = tag2) tokens2 ->
  Permutation
    (Index.handleSetTokenBalances tokens1 tag1
       (Index.handleSetTokenBalances tokens2 tag2 prev))
    (Index.handleSetTokenBalances tokens2 tag2
       (Index.handleSetTokenBalances tokens1 tag1 prev)).
Proof.
  intros Hne H1 H2.
  rewrite !handleSetTokenBalances_app, !filter_app.
  rewrite (filter_other_tag tag1 tag2 tokens2) by (auto).
  rewrite (filter_other_tag tag2 tag1 tokens1) by (auto).
  rewrite (filter_comm (fun t => negb (chain t =? tag1)%string)).
  rewrite <- !app_assoc. apply Permutation_app_head, Permutation_app_comm.
Qed.

Lemma updates_of_two_chains_commute_witness :
  Permutation
    (Index.handleSetTokenBalances [Scenario.sol] "svm"
       (Index.handleSetTokenBalances [Scenario.celo] "evm" []))
    (Index.handleSetTokenBalances [Scenario.celo] "evm"
       (Index.handleSetTokenBalances [Scenario.sol] "svm" [])).
Proof.
  apply (updates_of_two_chains_commute [Scenario.sol] [Scenario.celo] [] "svm" "evm").
  - discriminate.
  - repeat constructor.
  - repeat constructor.
Defined.

(** ** What a fetch hands to the page *)

Lemma flagWrites_app (t1 t2 : list Event) :
  flagWrites (t1 ++ t2) = (flagWrites t1 ++ flagWrites t2)%list.
Proof.
  induction t1 as [|ev t1 IH]; [reflexivity|].
  destruct ev; cbn; rewrite ?IH; reflexivity.
Qed.

Lemma metadata_events_write_no_flag (tr : list Event) :
  forallb isMetadataEvent tr = true -> flagWrites tr = [].
Proof.
  induction tr as [|ev tr IH]; [reflexivity|].
  cbn. intros H. apply andb_true_iff in H as [Hev Htr].
  destruct ev; try discriminate; cbn; auto.
Qed.

Lemma mvm_fetch_when_rejected (W : World) (account : string) (e : Thrown) :
  client_getAccountResources (aptos W) account = Throws e ->
  MVMWalletConnector.fetchTokenBalances W false account
  = ([Console ConsoleLog "Fetching token balances for MVM wallet:";
      SetFetchingBalances true;
      Called (AptosClient_getAccountResources account);
      Rejected (AptosClient_getAccountResources account) e;
      Console ConsoleError "Error fetching token balances:";
      SetTokenBalances [MVMWalletConnector.emptyToken];
      SetFetchingBalances false], Returns tt).
Proof.
  intros Hres. unfold MVMWalletConnector.fetchTokenBalances. rewrite Hres.
  reflexivity.
Qed.

Lemma fetch_shape (c : Index.Connector) (W : World) (account : string) :
  result (fetchTokenBalancesOf c W false account) = Returns tt /\
  (exists tokens, reported (trace (fetchTokenBalancesOf c W false account)) = [tokens]) /\
  flagWrites (trace (fetchTokenBalancesOf c W false account)) = [true; false].
Proof.
  destruct c; cbn [fetchTokenBalancesOf].
  - destruct (client_getAccountResources (aptos W) account) as [resources|e] eqn:Hres.
    + destruct (mvm_fetch_when_enumerated W account resources Hres)
        as (tr & tokens & -> & Hev & _).
      unfold trace, result; cbn [fst snd app reported flagWrites].
      rewrite reported_app, flagWrites_app,
        (metadata_events_report_nothing tr Hev), (metadata_events_write_no_flag tr Hev).
      repeat split. exists tokens. reflexivity.
    + rewrite (mvm_fetch_when_rejected W account e Hres).
      repeat split. eexists. reflexivity.
  - unfold EVMWalletConnector.fetchTokenBalances.
    run_cases; repeat split; eexists; reflexivity.
  - unfold SVMWalletConnector.fetchTokenBalances.
    run_cases; repeat split; eexists; reflexivity.
Qed.

Lemma fetch2_shape (W : World) (account : string) :
  result (EVMWalletConnector2.fetchTokenBalances W false account) = Returns tt /\
  (exists tokens,
     reported (trace (EVMWalletConnector2.fetchTokenBalances W false account)) = [tokens]) /\
  flagWrites (trace (EVMWalletConnector2.fetchTokenBalances W false account))
  = [true; false].
Proof.
  unfold EVMWalletConnector2.fetchTokenBalances.
  run_cases; repeat split; eexists; reflexivity.
Qed.

(** X4: a fetch that is not dropped by the in-flight flag, of any of the
    three connectors and of the second EVM connector, in any
    environment, returns normally, hands exactly one list to
    [setTokenBalances], and writes the flag exactly twice: [true], then
    [false].  The flag is never left set. *)
Theorem fetch_reports_once_and_clears_the_flag
    (c : Index.Connector) (W : World) (account : string) :
  (result (fetchTokenBalancesOf c W false account) = Returns tt /\
   (exists tokens, reported (trace (fetchTokenBalancesOf c W false account)) = [tokens]) /\
   flagWrites (trace (fetchTokenBalancesOf c W false account)) = [true; false]) /\
  (result (EVMWalletConnector2.fetchTokenBalances W false account) = Returns tt /\
   (exists tokens,
      reported (trace (EVMWalletConnector2.fetchTokenBalances W false account)) = [tokens]) /\
   flagWrites (trace (EVMWalletConnector2.fetchTokenBalances W false account))
   = [true; false]).
Proof.
  split; [apply fetch_shape | apply fetch2_shape].
Qed.

Lemma deliver_one_report (c : Index.Connector) (events : list Event)
    (tokens prev : list Token) :
  reported events = [tokens] ->
  Index.deliver c events prev = Index.handleSetTokenBalances tokens (Index.chainTag c) prev.
Proof.
  revert prev. induction events as [|ev events IH]; intros prev H; [discriminate|].
  destruct ev; cbn in *; auto.
  injection H as -> Hrest. apply deliver_silent. exact Hrest.
Qed.

Lemma reported_tokens_are_tagged (fetch : World -> bool -> string -> M unit)
    (tag : string) (W : World) (account : string) (tokens : list Token) :
  reportsOwnTag fetch tag ->
  reported (trace (fetch W false account)) = [tokens] ->
  Forall (fun t => chain t = tag) tokens.
Proof.
  intros Hown Hrep. apply Forall_forall. intros t Ht.
  apply (Hown W false account tokens t); [rewrite Hrep; left; reflexivity | exact Ht].
Qed.

(** X5: after a fetch of the Solana or of the Aptos connector has been
    delivered to the page, the entries of that connector's tag are
    exactly the list the fetch reported, balances or error marker, and
    the entries of the other chains are those of the prior list.  The
    same holds for the second EVM connector under the tag "evm". *)
Theorem delivered_fetch_replaces_the_chain
    (c : Index.Connector) (W : World) (account : string) (prev : list Token) :
  (c <> Index.EVM ->
   exists tokens,
     reported (trace (fetchTokenBalancesOf c W false account)) = [tokens] /\
     let next := Index.deliver c (trace (fetchTokenBalancesOf c W false account)) prev in
     filter (hasTag (Index.chainTag c)) next = tokens /\
     filter (fun t => negb (hasTag (Index.chainTag c) t)) next
     = filter (fun t => negb (hasTag (Index.chainTag c) t)) prev) /\
  (exists tokens,
     reported (trace (EVMWalletConnector2.fetchTokenBalances W false account)) = [tokens] /\
     let next := Index.deliver Index.EVM
                   (trace (EVMWalletConnector2.fetchTokenBalances W false account)) prev in
     filter (hasTag "evm") next = tokens /\
     filter (fun t => negb (hasTag "evm" t)) next
     = filter (fun t => negb (hasTag "evm" t)) prev).
Proof.
  split.
  - intros Hc.
    destruct (fetch_shape c W account) as (_ & (tokens & Hrep) & _).
    exists tokens. split; [exact Hrep|]. cbv zeta.
    rewrite (deliver_one_report c _ tokens prev Hrep).
    assert (Htag : Forall (fun t => chain t = Index.chainTag c) tokens).
    { destruct c; [| contradiction |].
      - exact (reported_tokens_are_tagged _ _ W account tokens
                 mvm_connector_reports_own_tag Hrep).
      - exact (reported_tokens_are_tagged _ _ W account tokens
                 svm_connector_reports_own_tag Hrep). }
    destruct (filter_tag_of_tagged _ tokens Htag) as [Hkeep Hdrop].
    rewrite handleSetTokenBalances_app, !filter_app. unfold hasTag.
    rewrite filter_tag_of_survivors, Hkeep, Hdrop, filter_idem, app_nil_r.
    split; reflexivity.
  - destruct (fetch2_shape W account) as (_ & (tokens & Hrep) & _).
    exists tokens. split; [exact Hrep|]. cbv zeta.
    rewrite (deliver_one_report Index.EVM _ tokens prev Hrep).
    assert (Htag : Forall (fun t => chain t = "evm") tokens)
      by exact (reported_tokens_are_tagged _ _ W account tokens
                  evm_connector2_reports_own_tag Hrep).
    destruct (filter_tag_of_tagged _ tokens Htag) as [Hkeep Hdrop].
    cbn [Index.chainTag].
    rewrite handleSetTokenBalances_app, !filter_app. unfold hasTag.
    rewrite filter_tag_of_survivors, Hkeep, Hdrop, filter_idem, app_nil_r.
    split; reflexivity.
Qed.

Lemma delivered_fetch_replaces_the_chain_witness :
  exists tokens,
    reported (trace (SVMWalletConnector.fetchTokenBalances Scenario.offline false
                       Scenario.alice)) = [tokens] /\
    let next := Index.deliver Index.SVM
                  (trace (SVMWalletConnector.fetchTokenBalances Scenario.offline false
                            Scenario.alice)) [Scenario.sol; Scenario.celo] in
    filter (hasTag "svm") next = tokens /\
    filter (fun t => negb (hasTag "svm" t)) next
    = filter (fun t => negb (hasTag "svm" t)) [Scenario.sol; Scenario.celo].
Proof.
  apply (delivered_fetch_replaces_the_chain Index.SVM Scenario.offline Scenario.alice
           [Scenario.sol; Scenario.celo]).
  discriminate.
Defined.

Lemma marker_count_after_update (tokens prev : list Token) :
  count_occ Token_eq_dec
    (Index.handleSetTokenBalances tokens "evm" prev) EVMWalletConnector.emptyToken
  = (count_occ Token_eq_dec prev EVMWalletConnector.emptyToken
     + count_occ Token_eq_dec tokens EVMWalletConnector.emptyToken)%nat.
Proof.
  rewrite handleSetTokenBalances_app, count_occ_app, count_occ_filter_keep; reflexivity.
Qed.

(** X6: the error markers of the MetaMask connector accumulate.  Every
    failed fetch delivered to the page adds one more marker to the
    list, and neither a later fetch of that connector nor its
    disconnect removes any. *)
Theorem evm_error_markers_accumulate (W : World) (account : string) (prev : list Token) :
  let marker := EVMWalletConnector.emptyToken in
  let next := Index.deliver Index.EVM
                (trace (EVMWalletConnector.fetchTokenBalances W false account)) prev in
  (fetchFails Index.EVM W account ->
   count_occ Token_eq_dec next marker = S (count_occ Token_eq_dec prev marker)) /\
  (count_occ Token_eq_dec prev marker <= count_occ Token_eq_dec next marker)%nat /\
  count_occ Token_eq_dec
    (Index.deliver Index.EVM (trace EVMWalletConnector.handleDisconnect) prev) marker
  = count_occ Token_eq_dec prev marker.
Proof.
  cbv zeta.
  destruct (fetch_shape Index.EVM W account) as (_ & (tokens & Hrep) & _).
  cbn [fetchTokenBalancesOf] in Hrep.
  rewrite (deliver_one_report Index.EVM _ tokens prev Hrep). cbn [Index.chainTag].
  rewrite marker_count_after_update. split; [|split].
  - intros Hfails.
    destruct (failed_fetch_run Index.EVM W account Hfails) as (before & Hrun & Hnone & _).
    cbn [fetchTokenBalancesOf errorLogOf errorMarkerOf] in Hrun.
    rewrite Hrun in Hrep. unfold trace in Hrep; cbn [fst] in Hrep.
    rewrite reported_app, Hnone in Hrep. cbn in Hrep. injection Hrep as <-.
    cbn [count_occ]. destruct (Token_eq_dec _ _) as [_|Hne]; [lia | contradiction].
  - lia.
  - cbn. rewrite marker_count_after_update. cbn. lia.
Qed.

Lemma evm_error_markers_accumulate_witness :
  count_occ Token_eq_dec
    (Index.deliver Index.EVM
       (trace (EVMWalletConnector.fetchTokenBalances Scenario.offline false Scenario.alice))
       [EVMWalletConnector.emptyToken; Scenario.celo])
    EVMWalletConnector.emptyToken
  = S (count_occ Token_eq_dec [EVMWalletConnector.emptyToken; Scenario.celo]
         EVMWalletConnector.emptyToken).
Proof.
  apply (evm_error_markers_accumulate Scenario.offline Scenario.alice
           [EVMWalletConnector.emptyToken; Scenario.celo]).
  right. exists (Ethereum_request "eth_chainId"), Scenario.rejection.
  vm_compute. right; right; right; left; reflexivity.
Defined.

(** ** The coin type of a coin store *)

Lemma dotRun_singleLine (s : string) : singleLine s = true -> Js.dotRun s = s.
Proof.
  induction s as [|c s IH]; [reflexivity|].
  cbn. intros H. apply andb_true_iff in H as [Hc Hs].
  apply negb_true_iff in Hc. rewrite Hc, (IH Hs). reflexivity.
Qed.

Lemma singleLine_app (s1 s2 : string) :
  singleLine s1 = true -> singleLine s2 = true -> singleLine (s1 ++ s2) = true.
Proof.
  intros H1 H2. induction s1 as [|c s1 IH]; [exact H2|].
  cbn in *. apply andb_true_iff in H1 as [Hc Hs]. rewrite Hc, (IH Hs). reflexivity.
Qed.

Lemma beforeLastGt_closing (s : string) : Js.beforeLastGt (s ++ ">") = Some s.
Proof.
  induction s as [|c s IH]; [reflexivity|].
  cbn [append Js.beforeLastGt]. rewrite IH. reflexivity.
Qed.

(** X7: the resource type ["0x1::coin::CoinStore<T>"], for every
    non-empty coin type [T] without line break, nested type arguments
    included, is taken for a coin store, and the regular expression of
    the fetch recovers exactly [T] from it; the token made from the
    resource carries [T] as its id and address. *)
Theorem coin_store_type_round_trip (W : World) (T value : string) :
  T <> "" ->
  singleLine T = true ->
  let resource := {| resourceType := "0x1::coin::CoinStore<" ++ T ++ ">";
                     coinValue := value |} in
  MVMWalletConnector.isCoinStore resource = true /\
  MVMWalletConnector.tokenTypeOf resource = T /\
  exists t, result (MVMWalletConnector.tokenOfCoinStore W resource) = Returns t /\
            id t = T /\ address t = T.
Proof.
  intros Hne Hline resource.
  assert (Htype : MVMWalletConnector.tokenTypeOf resource = T).
  { unfold MVMWalletConnector.tokenTypeOf, resource. cbn.
    rewrite dotRun_singleLine by (apply singleLine_app; [exact Hline | reflexivity]).
    rewrite beforeLastGt_closing.
    destruct T as [|a cap]; [contradiction | reflexivity]. }
  split; [subst resource; clear; destruct T; reflexivity|].
  split; [exact Htype|].
  destruct (tokenOfCoinStore_returns W resource) as (tr & t & Hrun & _ & Hid & Haddr & _).
  exists t. rewrite Hrun. repeat split; congruence.
Qed.

Lemma coin_store_type_round_trip_witness :
  let resource := {| resourceType := "0x1::coin::CoinStore<" ++ "0x1::pool::LP<0x2::a::A, 0x3::b::B>" ++ ">";
                     coinValue := "42" |} in
  MVMWalletConnector.isCoinStore resource = true /\
  MVMWalletConnector.tokenTypeOf resource = "0x1::pool::LP<0x2::a::A, 0x3::b::B>" /\
  exists t, result (MVMWalletConnector.tokenOfCoinStore Scenario.online resource) = Returns t /\
            id t = "0x1::pool::LP<0x2::a::A, 0x3::b::B>" /\
            address t = "0x1::pool::LP<0x2::a::A, 0x3::b::B>".
Proof.
  apply (coin_store_type_round_trip Scenario.online
           "0x1::pool::LP<0x2::a::A, 0x3::b::B>" "42").
  - discriminate.
  - reflexivity.
Defined.

(** ** The balance check of the Solana transfer *)

Lemma ltb_nan (b : float) : (b <? nan)%float = false.
Proof.
  rewrite ltb_spec. change (Prim2SF nan) with S754_nan.
  unfold SFltb, SFcompare. destruct (Prim2SF b) as [| | |[] ? ?]; reflexivity.
Qed.

Lemma connect_if_needed (wallet : SolanaWalletProvider) :
  sol_isConnected wallet = true \/ sol_connect wallet = Returns tt ->
  exists pre,
    (pre = [] \/ pre = [Called Solana_connect]) /\
    (if negb (sol_isConnected wallet)
     then call Solana_connect (sol_connect wallet) else ret tt)
    = (pre, Returns tt).
Proof.
  intros Hconn. destruct (sol_isConnected wallet) eqn:Hc; cbn.
  - exists []. split; [left|]; reflexivity.
  - destruct Hconn as [Hconn | Hconn]; [discriminate|].
    rewrite Hconn. exists [Called Solana_connect]. split; [right|]; reflexivity.
Qed.

(** X8: whenever the balance that the RPC reports for the wallet is
    below [parseFloat(amount) * LAMPORTS_PER_SOL], [transferSOL] returns
    [false] after the notification "Insufficient Balance" naming the
    amount, having made no call but a possible [connect] and the
    balance query. *)
Theorem transferSOL_stops_on_a_short_balance
    (W : World) (wallet : SolanaWalletProvider) (toAddress amount : string)
    (currentBalance : float) :
  window_solana W = Some wallet ->
  sol_isConnected wallet = true \/ sol_connect wallet = Returns tt ->
  connection_getBalance (solana W) (sol_publicKey wallet) = Returns currentBalance ->
  (currentBalance <? Js.parseFloat amount * LAMPORTS_PER_SOL)%float = true ->
  let run := Wallet.transferSOL W toAddress amount in
  result run = Returns false /\
  toasts (trace run)
  = [Toast "Insufficient Balance" ("You need at least " ++ amount ++ " SOL.") Destructive] /\
  forall c, In (Called c) (trace run) ->
    c = Solana_connect \/ c = Connection_getBalance (sol_publicKey wallet).
Proof.
  intros Hwallet Hconn Hbal Hshort run. subst run.
  unfold Wallet.transferSOL. rewrite Hwallet.
  destruct (connect_if_needed wallet Hconn) as (pre & Hpre & ->).
  unfold_run. rewrite Hbal. cbn. rewrite Hshort. cbn.
  destruct Hpre as [-> | ->]; cbn; repeat split; intros; intuition congruence.
Qed.

Lemma transferSOL_stops_on_a_short_balance_witness :
  let run := Wallet.transferSOL Scenario.online Scenario.alice "2.50000001" in
  result run = Returns false /\
  toasts (trace run)
  = [Toast "Insufficient Balance" ("You need at least " ++ "2.50000001" ++ " SOL.")
       Destructive] /\
  forall c, In (Called c) (trace run) ->
    c = Solana_connect \/ c = Connection_getBalance (sol_publicKey Scenario.phantom).
Proof.
  apply (transferSOL_stops_on_a_short_balance Scenario.online Scenario.phantom
           Scenario.alice "2.50000001" 2500000000%float).
  - reflexivity.
  - left; reflexivity.
  - reflexivity.
  - vm_compute. reflexivity.
Defined.

(** X9: the balance check is the only check that [transferSOL] makes of
    the amount.  Whenever the reported balance is not below
    [parseFloat(amount) * LAMPORTS_PER_SOL], or the amount does not
    parse, the comparison with [NaN] being false whatever the balance,
    and the recipient is accepted as a key, the routine shows no
    "Insufficient Balance" and calls [SystemProgram.transfer] from the
    wallet's key to the recipient with exactly that many lamports, [NaN]
    included.  What follows is the answer of the SDK: when it rejects
    the call, the run ends with the one notification "Transfer Failed",
    carrying the message of the SDK, and returns [false]; when it builds
    the instruction, the run goes on to ask for the latest blockhash. *)
Theorem transferSOL_checks_the_amount_against_the_balance_only
    (W : World) (wallet : SolanaWalletProvider) (toAddress amount : string)
    (currentBalance : float) :
  window_solana W = Some wallet ->
  sol_isConnected wallet = true \/ sol_connect wallet = Returns tt ->
  connection_getBalance (solana W) (sol_publicKey wallet) = Returns currentBalance ->
  new_PublicKey (solana W) toAddress = Returns tt ->
  (currentBalance <? Js.parseFloat amount * LAMPORTS_PER_SOL)%float = false
  \/ Js.parseFloat amount = nan ->
  let lamports := (Js.parseFloat amount * LAMPORTS_PER_SOL)%float in
  let run := Wallet.transferSOL W toAddress amount in
  In (Called (SystemProgram_transfer (sol_publicKey wallet) toAddress lamports))
    (trace run) /\
  ~ In (Toast "Insufficient Balance" ("You need at least " ++ amount ++ " SOL.")
          Destructive)
      (trace run) /\
  (forall e,
     systemProgram_transfer (solana W) (sol_publicKey wallet) toAddress lamports
     = Throws e ->
     In (Rejected (SystemProgram_transfer (sol_publicKey wallet) toAddress lamports) e)
       (trace run) /\
     toasts (trace run) = [Toast "Transfer Failed" (errorMessage e) Destructive] /\
     ~ In (Called Connection_getLatestBlockhash) (trace run) /\
     result run = Returns false) /\
  (systemProgram_transfer (solana W) (sol_publicKey wallet) toAddress lamports
   = Returns tt ->
   In (Called Connection_getLatestBlockhash) (trace run)).
Proof.
  intros Hwallet Hconn Hbal Hkey Hpass lamports run. subst lamports run.
  assert (Hcheck : (currentBalance <? Js.parseFloat amount * LAMPORTS_PER_SOL)%float = false).
  { destruct Hpass as [H | Hnan]; [exact H|].
    rewrite Hnan. change (nan * LAMPORTS_PER_SOL)%float with nan. apply ltb_nan. }
  unfold Wallet.transferSOL. rewrite Hwallet.
  destruct (connect_if_needed wallet Hconn) as (pre & Hpre & ->).
  unfold_run. rewrite Hbal. cbn. rewrite Hcheck. cbn. rewrite Hkey. cbn.
  destruct (systemProgram_transfer (solana W) (sol_publicKey wallet) toAddress
              (Js.parseFloat amount * LAMPORTS_PER_SOL)%float) as [[]|e] eqn:Hbuild.
  - destruct Hpre as [-> | ->];
      repeat (cbn; try case_on_answer);
      (split; [cbn; auto 10|]);
      (split; [cbn; intuition discriminate|]);
      (split; [intros e' He'; discriminate He' | intros _; cbn; auto 10]).
  - destruct Hpre as [-> | ->]; cbn;
      (split; [auto 10|]);
      (split; [intuition discriminate|]);
      (split; [|intros H; discriminate H]);
      intros e' He'; injection He' as <-;
      (split; [auto 10|]); (split; [reflexivity|]);
      (split; [intuition discriminate | reflexivity]).
Qed.

Lemma transferSOL_checks_the_amount_against_the_balance_only_witness :
  let lamports := (Js.parseFloat "abc" * LAMPORTS_PER_SOL)%float in
  let run := Wallet.transferSOL strictOnline bob "abc" in
  In (Called (SystemProgram_transfer (sol_publicKey Scenario.phantom) bob lamports))
    (trace run) /\
  toasts (trace run) = [Toast "Transfer Failed" (errorMessage notANumber) Destructive] /\
  result run = Returns false.
Proof.
  destruct (transferSOL_checks_the_amount_against_the_balance_only strictOnline
              Scenario.phantom bob "abc" 2500000000%float)
    as (Hcalled & _ & Hrejected & _).
  - reflexivity.
  - left; reflexivity.
  - reflexivity.
  - reflexivity.
  - right. vm_compute. reflexivity.
  - destruct (Hrejected notANumber) as (_ & Htoasts & _ & Hresult);
      [vm_compute; reflexivity|].
    split; [exact Hcalled | split; [exact Htoasts | exact Hresult]].
Defined.

(** ** The transfer routines, call by call *)

Ltac partition_trace Hin :=
  cbn in Hin;
  repeat (destruct Hin as [Hin | Hin]; [try discriminate Hin|]);
  try contradiction.

Lemma transferERC20_notifies_once (W : World) (tokenAddress toAddress amount : string) :
  notifiesOnce (Wallet.transferERC20 W tokenAddress toAddress amount).
Proof.
  unfold notifiesOnce, Wallet.transferERC20.
  run_cases; eexists _, _, _; (split; [reflexivity|]);
    split; intros Hresult; try discriminate Hresult; auto.
Qed.

Lemma transferSOL_notifies_once (W : World) (toAddress amount : string) :
  notifiesOnce (Wallet.transferSOL W toAddress amount).
Proof.
  unfold notifiesOnce, Wallet.transferSOL.
  run_cases; eexists _, _, _; (split; [reflexivity|]);
    split; intros Hresult; try discriminate Hresult; auto.
Qed.

Lemma transferMVMToken_notifies_once (W : World) (token : Token)
    (toAddress amount : string) :
  notifiesOnce (Wallet.transferMVMToken W token toAddress amount).
Proof.
  unfold notifiesOnce, Wallet.transferMVMToken.
  run_cases; eexists _, _, _; (split; [reflexivity|]);
    split; intros Hresult; try discriminate Hresult; auto.
Qed.

(** X10: every run of [transferTokens], whatever the token and the
    environment, shows exactly one notification: "Transfer Successful"
    when it returns [true], a notification of the destructive variant
    when it returns [false]. *)
Theorem transferTokens_notifies_exactly_once (W : World) (params : TransferParams) :
  notifiesOnce (Wallet.transferTokens W params).
Proof.
  unfold Wallet.transferTokens.
  destruct (chain (token params) =? "evm")%string; [apply transferERC20_notifies_once|].
  destruct (chain (token params) =? "svm")%string; [apply transferSOL_notifies_once|].
  destruct (chain (token params) =? "mvm")%string; [apply transferMVMToken_notifies_once|].
  exists "Error", "Unsupported chain", Destructive.
  split; [reflexivity|]. split; intros Hresult; [discriminate Hresult | reflexivity].
Qed.

(** X11: [transferTokens] dispatches strictly by the chain tag: for a
    token tagged "evm", "svm" or "mvm", every SDK and extension call of
    the run goes to that chain's SDK and extension, in every
    environment. *)
Theorem transferTokens_stays_on_its_chain
    (W : World) (params : TransferParams) (c : Index.Connector) :
  chain (token params) = Index.chainTag c ->
  callsOnlyOn c (trace (Wallet.transferTokens W params)) = true.
Proof.
  intros Htag. unfold Wallet.transferTokens. rewrite Htag.
  destruct c; cbn [Index.chainTag String.eqb Ascii.eqb Bool.eqb].
  - unfold Wallet.transferMVMToken. run_cases; reflexivity.
  - unfold Wallet.transferERC20. run_cases; reflexivity.
  - unfold Wallet.transferSOL. run_cases; reflexivity.
Qed.

Lemma transferTokens_stays_on_its_chain_witness :
  callsOnlyOn Index.SVM
    (trace (Wallet.transferTokens Scenario.online
              {| token := Scenario.sol; toAddress := Scenario.alice; amount := "2.5" |}))
  = true.
Proof.
  apply (transferTokens_stays_on_its_chain Scenario.online
           {| token := Scenario.sol; toAddress := Scenario.alice; amount := "2.5" |}
           Index.SVM).
  reflexivity.
Defined.

Ltac solve_confirmed :=
  intros Htrue;
  first [ discriminate Htrue
        | split;
          [ reflexivity
          | intros ? ? Hin; partition_trace Hin;
            injection Hin as <- <-; split; reflexivity ] ].

Lemma transferERC20_confirmed (W : World) (tokenAddress toAddress amount : string) :
  confirmedWhenTrue (Wallet.transferERC20 W tokenAddress toAddress amount).
Proof.
  unfold confirmedWhenTrue, Wallet.transferERC20.
  run_cases; solve_confirmed.
Qed.

Lemma transferSOL_confirmed (W : World) (toAddress amount : string) :
  confirmedWhenTrue (Wallet.transferSOL W toAddress amount).
Proof.
  unfold confirmedWhenTrue, Wallet.transferSOL.
  run_cases; solve_confirmed.
Qed.

Lemma transferMVMToken_confirmed (W : World) (token : Token) (toAddress amount : string) :
  confirmedWhenTrue (Wallet.transferMVMToken W token toAddress amount).
Proof.
  unfold confirmedWhenTrue, Wallet.transferMVMToken.
  run_cases; solve_confirmed.
Qed.

(** X12: [transferTokens] returns [true] only after a transaction was
    submitted and its confirmation awaited (one confirmation on the EVM
    chain, the "confirmed" commitment on Solana, the success of the
    transaction on Aptos), neither call having been rejected. *)
Theorem transferTokens_true_only_when_confirmed (W : World) (params : TransferParams) :
  result (Wallet.transferTokens W params) = Returns true ->
  submittedThenConfirmed (trace (Wallet.transferTokens W params)) = true /\
  forall c e, In (Rejected c e) (trace (Wallet.transferTokens W params)) ->
    isSubmission c = false /\ isConfirmation c = false.
Proof.
  unfold Wallet.transferTokens.
  destruct (chain (token params) =? "evm")%string; [apply transferERC20_confirmed|].
  destruct (chain (token params) =? "svm")%string; [apply transferSOL_confirmed|].
  destruct (chain (token params) =? "mvm")%string; [apply transferMVMToken_confirmed|].
  intros H; discriminate H.
Qed.

Lemma transferTokens_true_only_when_confirmed_witness :
  let run := Wallet.transferTokens Scenario.onlineWithoutCelo
               {| token := Scenario.celo; toAddress := Scenario.alice; amount := "0.1" |} in
  submittedThenConfirmed (trace run) = true /\
  forall c e, In (Rejected c e) (trace run) ->
    isSubmission c = false /\ isConfirmation c = false.
Proof.
  apply (transferTokens_true_only_when_confirmed Scenario.onlineWithoutCelo
           {| token := Scenario.celo; toAddress := Scenario.alice; amount := "0.1" |}).
  reflexivity.
Defined.

Lemma includes_nonempty (s sub : string) :
  sub <> "" -> Js.includes s sub = true -> s <> "".
Proof.
  intros Hsub H ->. destruct sub; [contradiction | discriminate H].
Qed.

Lemma native_or_token (tokenAddress : string) :
  ((tokenAddress = "" \/ tokenAddress = "native") /\
   negb (tokenAddress =? "")%string && negb (tokenAddress =? "native")%string = false)
  \/
  (tokenAddress <> "" /\ tokenAddress <> "native" /\
   negb (tokenAddress =? "")%string && negb (tokenAddress =? "native")%string = true).
Proof.
  destruct (String.eqb_spec tokenAddress "") as [->|H1]; [left; split; auto|].
  destruct (String.eqb_spec tokenAddress "native") as [->|H2]; [left; split; auto|].
  right. repeat split; auto.
Qed.

(** X13: what the EVM transfer submits is what was asked.  A plain
    value transfer is sent only for the token address "" or "native",
    to the recipient, with the value [parseEther] made of the amount; an
    ERC-20 [transfer] is called only on a token address other than
    these two, on that very contract, to the recipient, with the value
    [parseUnits] made of the amount and of the decimals the contract
    reported. *)
Theorem transferERC20_submits_what_was_asked
    (W : World) (tokenAddress toAddress amount : string) :
  let run := Wallet.transferERC20 W tokenAddress toAddress amount in
  (forall to value, In (Called (Signer_sendTransaction to value)) (trace run) ->
     (tokenAddress = "" \/ tokenAddress = "native") /\
     to = toAddress /\
     parseEther (ethers W) amount = Returns value) /\
  (forall contract to value,
     In (Called (Contract_transfer contract to value)) (trace run) ->
     contract = tokenAddress /\ tokenAddress <> "" /\ tokenAddress <> "native" /\
     to = toAddress /\
     exists decimals,
       contract_decimals (ethers W) tokenAddress = Returns decimals /\
       parseUnits (ethers W) amount decimals = Returns value).
Proof.
  cbv zeta. unfold Wallet.transferERC20.
  destruct (native_or_token tokenAddress) as [[Hnative ->] | (Hne1 & Hne2 & ->)];
    (split; [intros to value | intros contract to value]);
    run_cases; intros Hin; partition_trace Hin;
    injection Hin as; subst; repeat split; eauto.
Qed.

(** X14: what the Aptos transfer submits is what was asked.  Every
    payload handed to the extension calls ["0x1::coin::transfer"] for
    the recipient with the amount scaled by the token's decimals, and
    its type argument always contains ["::"]: it is the token's address
    when that contains ["::"], and the native coin type otherwise. *)
Theorem transferMVMToken_submits_what_was_asked
    (W : World) (token : Token) (toAddress amount : string) :
  forall function_ typeArgument recipient scaled,
    In (Called (Petra_signAndSubmitTransaction function_ typeArgument recipient scaled))
      (trace (Wallet.transferMVMToken W token toAddress amount)) ->
    function_ = "0x1::coin::transfer" /\
    recipient = toAddress /\
    scaled = BigNumber_scaled (library W) amount (decimals token) /\
    Js.includes typeArgument "::" = true /\
    typeArgument = (if Js.includes (address token) "::"
                    then address token else "0x1::aptos_coin::AptosCoin").
Proof.
  intros function_ typeArgument recipient scaled.
  assert (Htag :
    (if (address token =? "")%string || negb (Js.includes (address token) "::")
     then "0x1::aptos_coin::AptosCoin" else address token)
    = (if Js.includes (address token) "::"
       then address token else "0x1::aptos_coin::AptosCoin")).
  { destruct (Js.includes (address token) "::") eqn:Hinc.
    - assert (Hne : address token <> "")
        by (apply (includes_nonempty _ "::"); [discriminate | exact Hinc]).
      apply String.eqb_neq in Hne. rewrite Hne. reflexivity.
    - rewrite orb_true_r. reflexivity. }
  unfold Wallet.transferMVMToken. cbv zeta. rewrite Htag.
  assert (Hinc : Js.includes
                   (if Js.includes (address token) "::"
                    then address token else "0x1::aptos_coin::AptosCoin") "::" = true)
    by (destruct (Js.includes (address token) "::") eqn:E; [exact E | reflexivity]).
  revert Hinc.
  generalize (if Js.includes (address token) "::"
              then address token else "0x1::aptos_coin::AptosCoin").
  intros typeTag Hinc.
  run_cases; intros Hin; partition_trace Hin;
    injection Hin as <- <- <- <-; repeat split; auto.
Qed.

(** X15: the EVM transfer asks for a signer, and therefore submits
    anything, only once the extension is on the Celo test network:
    either its first request to switch succeeded, or that request was
    rejected with code 4902 and both the request to add the network and
    the second request to switch succeeded. *)
Theorem transferERC20_acts_only_on_the_switched_network
    (W : World) (tokenAddress toAddress amount : string) (c : SdkCall) :
  In (Called c) (trace (Wallet.transferERC20 W tokenAddress toAddress amount)) ->
  (forall method, c <> Ethereum_request method) ->
  exists ethereum,
    window_ethereum W = Some ethereum /\
    (wallet_switchEthereumChain ethereum = Returns tt \/
     exists e, wallet_switchEthereumChain ethereum = Throws e /\
               code e = Some 4902 /\
               wallet_addEthereumChain ethereum = Returns tt /\
               wallet_switchEthereumChain_again ethereum = Returns tt).
Proof.
  unfold Wallet.transferERC20.
  destruct (window_ethereum W) as [ethereum|];
    [|unfold_run; cbn; intros Hin; partition_trace Hin].
  intros Hin Hnot. exists ethereum. split; [reflexivity|].
  destruct (wallet_switchEthereumChain ethereum) as [[]|e] eqn:Hswitch;
    [left; reflexivity|].
  right. exists e. split; [reflexivity|].
  destruct (Wallet.isUnrecognizedChain e) eqn:H4902.
  - split; [apply isUnrecognizedChain_code; exact H4902|].
    revert Hin. unfold_run. cbn. rewrite H4902.
    destruct (wallet_addEthereumChain ethereum) as [[]|e1];
      destruct (wallet_switchEthereumChain_again ethereum) as [[]|e2];
      try (split; reflexivity);
      cbn; intros Hin; exfalso; partition_trace Hin;
      injection Hin as <-; eapply Hnot; reflexivity.
  - exfalso. revert Hin. unfold_run. cbn. rewrite H4902. cbn.
    intros Hin; partition_trace Hin. injection Hin as <-. eapply Hnot; reflexivity.
Qed.

Lemma transferERC20_acts_only_on_the_switched_network_witness :
  exists ethereum,
    window_ethereum Scenario.onlineWithoutCelo = Some ethereum /\
    (wallet_switchEthereumChain ethereum = Returns tt \/
     exists e, wallet_switchEthereumChain ethereum = Throws e /\
               code e = Some 4902 /\
               wallet_addEthereumChain ethereum = Returns tt /\
               wallet_switchEthereumChain_again ethereum = Returns tt).
Proof.
  apply (transferERC20_acts_only_on_the_switched_network Scenario.onlineWithoutCelo
           "native" Scenario.alice "0.1"
           (Signer_sendTransaction Scenario.alice 100000000000000000)).
  - vm_compute. do 6 right. left. reflexivity.
  - discriminate.
Defined.

Lemma transferMVMToken_submits_what_was_asked_witness :
  "0x1::coin::transfer" = "0x1::coin::transfer" /\
  Scenario.alice = Scenario.alice /\
  "10000000" = BigNumber_scaled (library Scenario.online) "0.1"
                 (decimals MVMWalletConnector.emptyToken) /\
  Js.includes "0x1::aptos_coin::AptosCoin" "::" = true /\
  "0x1::aptos_coin::AptosCoin"
  = (if Js.includes (address MVMWalletConnector.emptyToken) "::"
     then address MVMWalletConnector.emptyToken else "0x1::aptos_coin::AptosCoin").
Proof.
  apply (transferMVMToken_submits_what_was_asked Scenario.online
           MVMWalletConnector.emptyToken Scenario.alice "0.1"
           "0x1::coin::transfer" "0x1::aptos_coin::AptosCoin" Scenario.alice "10000000").
  vm_compute. do 4 right. left. reflexivity.
Defined.

(** X16: what the Solana transfer builds is what was asked, after a
    passed check.  Every transfer instruction goes from the key of the
    wallet to the recipient with [parseFloat(amount) * LAMPORTS_PER_SOL]
    lamports, the recipient was accepted as a key, and the balance the
    RPC reported was not below that amount. *)
Theorem transferSOL_builds_what_was_asked
    (W : World) (toAddress amount from to : string) (lamports : float) :
  In (Called (SystemProgram_transfer from to lamports))
    (trace (Wallet.transferSOL W toAddress amount)) ->
  exists wallet currentBalance,
    window_solana W = Some wallet /\
    from = sol_publicKey wallet /\
    to = toAddress /\
    lamports = (Js.parseFloat amount * LAMPORTS_PER_SOL)%float /\
    new_PublicKey (solana W) toAddress = Returns tt /\
    connection_getBalance (solana W) (sol_publicKey wallet) = Returns currentBalance /\
    (currentBalance <? lamports)%float = false.
Proof.
  unfold Wallet.transferSOL.
  run_cases; intros Hin; partition_trace Hin;
    injection Hin as <- <- <-;
    repeat match goal with u : unit |- _ => destruct u end;
    eexists _, _; repeat split; eauto.
Qed.

Lemma transferSOL_builds_what_was_asked_witness :
  exists wallet currentBalance,
    window_solana Scenario.online = Some wallet /\
    sol_publicKey Scenario.phantom = sol_publicKey wallet /\
    Scenario.alice = Scenario.alice /\
    2500000000%float = (Js.parseFloat "2.5" * LAMPORTS_PER_SOL)%float /\
    new_PublicKey (solana Scenario.online) Scenario.alice = Returns tt /\
    connection_getBalance (solana Scenario.online) (sol_publicKey wallet)
    = Returns currentBalance /\
    (currentBalance <? 2500000000)%float = false.
Proof.
  apply (transferSOL_builds_what_was_asked Scenario.online Scenario.alice "2.5"
           (sol_publicKey Scenario.phantom) Scenario.alice 2500000000%float).
  vm_compute. do 2 right. left. reflexivity.
Defined.

(** X17: without the extension of the token's chain, [transferTokens]
    makes no call at all: it shows the one notification that names the
    missing wallet and returns [false]. *)
Theorem transferTokens_without_the_extension (W : World) (params : TransferParams) :
  (chain (token params) = "evm" -> window_ethereum W = None ->
   Wallet.transferTokens W params
   = ([Toast "Error" "No Ethereum wallet found. Please install MetaMask." Destructive],
      Returns false)) /\
  (chain (token params) = "svm" -> window_solana W = None ->
   Wallet.transferTokens W params
   = ([Toast "Error" "No Solana wallet found. Please install Phantom." Destructive],
      Returns false)) /\
  (chain (token params) = "mvm" -> window_petra W = None ->
   Wallet.transferTokens W params
   = ([Toast "Error" "Petra wallet not installed." Destructive], Returns false)).
Proof.
  unfold Wallet.transferTokens, Wallet.transferERC20, Wallet.transferSOL,
    Wallet.transferMVMToken.
  repeat split; intros Htag Hnone; rewrite Htag, Hnone; reflexivity.
Qed.

(** ** Runs inside the interface *)

Lemma coreTrace_lift (tr : list Event) : coreTrace (map Core tr) = tr.
Proof. induction tr as [|ev tr IH]; cbn; [|rewrite IH]; reflexivity. Qed.

Lemma coreTrace_app (t1 t2 : list UiEvent) :
  coreTrace (t1 ++ t2) = (coreTrace t1 ++ coreTrace t2)%list.
Proof.
  induction t1 as [|ev t1 IH]; [reflexivity|].
  destruct ev; cbn; rewrite ?IH; reflexivity.
Qed.

Lemma toasts_app (t1 t2 : list Event) :
  toasts (t1 ++ t2) = (toasts t1 ++ toasts t2)%list.
Proof. apply filter_app. Qed.

Lemma metadata_events_toast_nothing (tr : list Event) :
  forallb isMetadataEvent tr = true -> toasts tr = [].
Proof.
  induction tr as [|ev tr IH]; [reflexivity|].
  cbn. intros H. apply andb_true_iff in H as [Hev Htr].
  destruct ev; try discriminate; cbn; auto.
Qed.

Lemma last_of_nonempty {A} (x : A) (l : list A) (d1 d2 : A) :
  last (x :: l) d1 = last (x :: l) d2.
Proof.
  revert x. induction l as [|y l IH]; intros x; [reflexivity|].
  cbn [last]. apply IH.
Qed.

(** The state after the events of a fetch: only the flag may differ. *)
Lemma after_fetch_events (tr : list Event) (st : Connection.State) :
  Connection.after (map Core tr) st
  = {| Connection.isConnected := Connection.isConnected st;
       Connection.address := Connection.address st;
       Connection.isInstalled := Connection.isInstalled st;
       Connection.fetchingBalances :=
         last (flagWrites tr) (Connection.fetchingBalances st) |}.
Proof.
  unfold Connection.after. revert st.
  induction tr as [|ev tr IH]; intros st; [destruct st; reflexivity|].
  cbn [map fold_left]. rewrite IH.
  destruct ev; cbn; try reflexivity.
  destruct (flagWrites tr) as [|w ws]; [reflexivity|].
  rewrite (last_of_nonempty w ws b (Connection.fetchingBalances st)). reflexivity.
Qed.

Lemma dialog_after_core_events (tr : list Event) (d : IndexActions.Dialog) :
  IndexActions.after (map Core tr) d = d.
Proof.
  unfold IndexActions.after. induction tr as [|ev tr IH]; [reflexivity|]. exact IH.
Qed.

(** What every fetch of a connector is, to the interface around it. *)
Lemma fetch_run (c : Index.Connector) (W : World) (inFlight : bool) (account : string) :
  exists tr,
    fetchTokenBalancesOf c W inFlight account = (tr, Returns tt) /\
    toasts tr = [] /\
    last (flagWrites tr) inFlight = inFlight /\
    (inFlight = false -> exists tokens, reported tr = [tokens]) /\
    (inFlight = true -> tr = []).
Proof.
  destruct inFlight.
  - exists []. rewrite fetch_in_flight_is_dropped. repeat split. discriminate.
  - destruct (fetch_shape c W account) as (Hres & Hrep & Hflag).
    destruct (fetchTokenBalancesOf c W false account) as [tr r] eqn:Hrun.
    unfold result, trace in *; cbn [fst snd] in *. subst r.
    exists tr. split; [reflexivity|]. split; [|split; [|split]].
    + destruct c; cbn [fetchTokenBalancesOf] in Hrun.
      * destruct (client_getAccountResources (aptos W) account) as [resources|e] eqn:Hr.
        -- destruct (mvm_fetch_when_enumerated W account resources Hr)
             as (mid & tokens & Hshape & Hev & _).
           rewrite Hshape in Hrun. injection Hrun as <-.
           unfold toasts. cbn [app filter isToast]. rewrite filter_app.
           fold (toasts mid). rewrite (metadata_events_toast_nothing mid Hev).
           reflexivity.
        -- rewrite (mvm_fetch_when_rejected W account e Hr) in Hrun.
           injection Hrun as <-. reflexivity.
      * revert Hrun. unfold EVMWalletConnector.fetchTokenBalances.
        run_cases; intros Hrun; injection Hrun as <-; reflexivity.
      * revert Hrun. unfold SVMWalletConnector.fetchTokenBalances.
        run_cases; intros Hrun; injection Hrun as <-; reflexivity.
    + rewrite Hflag. reflexivity.
    + intros _. exact Hrep.
    + discriminate.
Qed.

(** ** The transfer dialog *)

(** X18: [handleSubmitTransfer] validates nothing but presence.  With
    no token selected, or an empty recipient or amount, it makes no
    call, shows "Please fill in all fields" and leaves the dialog as it
    is.  Otherwise it runs [transferTokens] on the three fields as they
    are and never throws; the dialog is closed, after a second
    notification "Success", exactly when the transfer returned [true],
    and is left as it is when it returned [false]. *)
Theorem handleSubmitTransfer_outcomes (W : World) (d : IndexActions.Dialog) :
  let run := IndexActions.handleSubmitTransfer W d in
  uresult run = Returns tt /\
  (IndexActions.selectedToken d = None \/ IndexActions.toAddressInput d = ""
   \/ IndexActions.amountInput d = "" ->
   utrace run = [Core (Toast "Error" "Please fill in all fields" Destructive)]) /\
  (forall selected,
     IndexActions.selectedToken d = Some selected ->
     IndexActions.toAddressInput d <> "" ->
     IndexActions.amountInput d <> "" ->
     let transfer := Wallet.transferTokens W
                       {| token := selected;
                          toAddress := IndexActions.toAddressInput d;
                          amount := IndexActions.amountInput d |} in
     (result transfer = Returns true ->
      utrace run
      = (map Core (trace transfer)
         ++ [Core (Toast "Success" (symbol selected ++ " sent successfully!")
                     DefaultVariant);
             SetIsTransferDialogOpen false])%list /\
      IndexActions.isTransferDialogOpen (IndexActions.after (utrace run) d) = false) /\
     (result transfer = Returns false ->
      utrace run = map Core (trace transfer) /\
      IndexActions.after (utrace run) d = d)).
Proof.
  cbv zeta. unfold IndexActions.handleSubmitTransfer.
  destruct (IndexActions.selectedToken d) as [selected|] eqn:Hsel.
  2: { split; [reflexivity|]. split; [reflexivity|]. intros selected H; discriminate H. }
  destruct (String.eqb_spec (IndexActions.toAddressInput d) "") as [Hto|Hto].
  { cbn [orb]. split; [reflexivity|]. split; [reflexivity|].
    intros ? _ Hne; contradiction. }
  destruct (String.eqb_spec (IndexActions.amountInput d) "") as [Ham|Ham].
  { cbn [orb]. split; [reflexivity|]. split; [reflexivity|].
    intros ? _ _ Hne; contradiction. }
  cbn [orb].
  destruct (transferTokens_total W
              {| token := selected;
                 toAddress := IndexActions.toAddressInput d;
                 amount := IndexActions.amountInput d |}) as (b & Hb & _).
  destruct (Wallet.transferTokens W
              {| token := selected;
                 toAddress := IndexActions.toAddressInput d;
                 amount := IndexActions.amountInput d |}) as [tr r] eqn:Hrun.
  unfold result, trace in Hb; cbn [fst snd] in Hb. subst r.
  split; [destruct b; reflexivity|]. split.
  - intros [H | [H | H]]; [discriminate H | contradiction | contradiction].
  - intros selected' Hs _ _. injection Hs as <-. rewrite Hrun.
    unfold result, trace; cbn [fst snd].
    split; intros Hres; injection Hres as ->.
    + split; [reflexivity|].
      change (utrace _) with
        (map Core tr ++ [Core (Toast "Success" (symbol selected ++ " sent successfully!")
                     DefaultVariant); SetIsTransferDialogOpen false])%list.
      unfold IndexActions.after. rewrite fold_left_app.
      fold (IndexActions.after (map Core tr) d). rewrite dialog_after_core_events.
      reflexivity.
    + change (utrace _) with (map Core tr ++ [])%list.
      rewrite app_nil_r. split; [reflexivity | apply dialog_after_core_events].
Qed.

(** ** Connecting and disconnecting *)

#[local] Arguments EVMWalletConnector.fetchTokenBalances : simpl never.
#[local] Arguments SVMWalletConnector.fetchTokenBalances : simpl never.
#[local] Arguments MVMWalletConnector.fetchTokenBalances : simpl never.

Ltac unfold_ui :=
  unfold utrace, uresult, ubind, uret, uemit, uthrow, utry_catch, ufinally, lift,
    trace, result, toast, console, emit, call in *.

(** The interface events of a successful connect, up to the fetch. *)
Lemma after_connect_events (account : string) (toastEvent : Event) (tr : list Event)
    (st : Connection.State) :
  isToast toastEvent = true ->
  last (flagWrites tr) (Connection.fetchingBalances st) = Connection.fetchingBalances st ->
  Connection.after
    ([SetAddress (Some account); SetIsConnected true; OnConnectChange; Core toastEvent]
     ++ map Core tr) st
  = connectedAs account st.
Proof.
  intros Htoast Hflag. unfold Connection.after. rewrite fold_left_app.
  fold (Connection.after (map Core tr)
          (fold_left Connection.step
             [SetAddress (Some account); SetIsConnected true; OnConnectChange;
              Core toastEvent] st)).
  rewrite after_fetch_events.
  destruct toastEvent; try discriminate Htoast. cbn. rewrite Hflag. reflexivity.
Qed.

Ltac connect_left_as_it_was st :=
  unfold_ui; cbn; destruct st; cbn in *;
  split; [reflexivity|]; split; [intros H; discriminate H | intros _];
  repeat split; eauto.

Ltac connect_succeeded Htoast Hflag Hrep :=
  split; [reflexivity|]; split; [intros H; discriminate H | intros _];
  match goal with
  | |- context [fold_left Connection.step (map Core ?t) ?s] =>
      change (fold_left Connection.step (map Core t) s)
        with (Connection.after (map Core t) s)
  end;
  rewrite after_fetch_events, coreTrace_lift;
  match goal with
  | |- context [filter isToast ?t] => change (filter isToast t) with (toasts t)
  end;
  rewrite Htoast; cbn; rewrite Hflag;
  split; [reflexivity | split; [reflexivity | exact Hrep]].

(** X19: [connectWallet], for each connector, never throws.  When the
    extension is not installed it only opens the install page.  When it
    is and the extension gives an account, the connector ends connected
    with exactly that account, with the one notification "Connected" and
    no other, whatever becomes of the balance fetch, which reports once
    to the page unless one is in flight.  In every other case the state
    is left as it was, nothing is reported, and the only notification,
    if any, is "Connection Failed". *)
Theorem connectWallet_outcomes
    (c : Index.Connector) (W : World) (A : UiAnswers) (st : Connection.State) :
  let run := connectWalletOf c W A st in
  uresult run = Returns tt /\
  (Connection.isInstalled st = false ->
   utrace run = [WindowOpen (installPageOf c) "_blank"]) /\
  (Connection.isInstalled st = true ->
   match connectedAccount c W A with
   | Some account =>
       Connection.after (utrace run) st = connectedAs account st /\
       toasts (coreTrace (utrace run)) = [connectedToastOf c] /\
       (Connection.fetchingBalances st = false ->
        exists tokens, reported (coreTrace (utrace run)) = [tokens])
   | None =>
       Connection.after (utrace run) st = st /\
       reported (coreTrace (utrace run)) = [] /\
       (toasts (coreTrace (utrace run)) = [] \/
        exists reason,
          toasts (coreTrace (utrace run)) = [Toast "Connection Failed" reason Destructive])
   end).
Proof.
  cbv zeta. destruct c; cbn [connectWalletOf connectedAccount installPageOf connectedToastOf].
  - (* Aptos *)
    unfold MVMWalletConnectorActions.connectWallet,
      MVMWalletConnectorActions.fetchTokenBalances.
    destruct (Connection.isInstalled st) eqn:Hinst; cbn [negb].
    2: { split; [reflexivity|]. split; [intros _; reflexivity | intros H; discriminate H]. }
    destruct (window_petra W) as [petra|]; [|connect_left_as_it_was st].
    destruct (petra_connect petra) as [[]|e]; [|connect_left_as_it_was st].
    destruct (petra_account petra) as [account|e]; [|connect_left_as_it_was st].
    destruct (String.eqb_spec account "") as [->|Hempty]; [connect_left_as_it_was st|].
    apply String.eqb_neq in Hempty.
    destruct (fetch_run Index.MVM W (Connection.fetchingBalances st) account)
      as (tr & Hrun & Htoast & Hflag & Hrep & _).
    cbn [fetchTokenBalancesOf] in Hrun.
    unfold_ui; cbn. rewrite Hempty. cbn. rewrite Hrun. cbn.
    connect_succeeded Htoast Hflag Hrep.
  - (* EVM *)
    unfold EVMWalletConnectorActions.connectWallet,
      EVMWalletConnectorActions.fetchTokenBalances.
    destruct (Connection.isInstalled st) eqn:Hinst; cbn [negb].
    2: { split; [reflexivity|]. split; [intros _; reflexivity | intros H; discriminate H]. }
    destruct (window_ethereum W) as [ethereum|]; [|connect_left_as_it_was st].
    destruct (eth_requestAccounts A) as [[|account accounts]|e];
      [connect_left_as_it_was st | | connect_left_as_it_was st].
    destruct (fetch_run Index.EVM W (Connection.fetchingBalances st) account)
      as (tr & Hrun & Htoast & Hflag & Hrep & _).
    cbn [fetchTokenBalancesOf] in Hrun.
    unfold_ui; cbn. rewrite Hrun. cbn.
    connect_succeeded Htoast Hflag Hrep.
  - (* Solana *)
    unfold SVMWalletConnectorActions.connectWallet,
      SVMWalletConnectorActions.fetchTokenBalances.
    destruct (Connection.isInstalled st) eqn:Hinst; cbn [negb].
    2: { split; [reflexivity|]. split; [intros _; reflexivity | intros H; discriminate H]. }
    destruct (SVMWalletConnectorActions.getPhantomWallet W A) as [phantom|];
      [|connect_left_as_it_was st].
    destruct (sol_connect phantom) as [[]|e]; [|connect_left_as_it_was st].
    destruct (fetch_run Index.SVM W (Connection.fetchingBalances st) (sol_publicKey phantom))
      as (tr & Hrun & Htoast & Hflag & Hrep & _).
    cbn [fetchTokenBalancesOf] in Hrun.
    unfold_ui; cbn. rewrite Hrun. cbn.
    connect_succeeded Htoast Hflag Hrep.
Qed.

(** X20: the Disconnect button always disconnects.  Whatever the
    extension answers to the request to disconnect, a rejection
    included, the run does not throw, the connector ends disconnected
    with no address, the one notification is "Disconnected", and the
    page is handed the empty list: no entry carrying the connector's
    tag is left and every other entry is kept. *)
Theorem disconnect_always_disconnects
    (c : Index.Connector) (W : World) (A : UiAnswers) (st : Connection.State)
    (prev : list Token) :
  let run := disconnectButtonOf c W A in
  let next := Index.deliver c (coreTrace (utrace run)) prev in
  uresult run = Returns tt /\
  Connection.after (utrace run) st = disconnected st /\
  toasts (coreTrace (utrace run)) = [disconnectedToastOf c] /\
  next = filter (fun t => negb (hasTag (Index.chainTag c) t)) prev /\
  filter (hasTag (Index.chainTag c)) next = [].
Proof.
  cbv zeta.
  assert (Hclear : forall tag,
            filter (hasTag tag) (filter (fun t => negb (hasTag tag t)) prev) = []).
  { intros tag. unfold hasTag. apply filter_tag_of_survivors. }
  destruct c; cbn [disconnectButtonOf disconnectedToastOf Index.chainTag].
  - unfold MVMWalletConnectorActions.disconnectWallet.
    destruct (window_petra W) as [petra|]; [destruct (petra_disconnect A) as [[]|e]|];
      unfold_ui; cbn; unfold Index.handleSetTokenBalances; rewrite app_nil_r;
      destruct st; repeat split; apply Hclear.
  - unfold_ui; cbn; unfold Index.handleSetTokenBalances; rewrite app_nil_r;
      destruct st; repeat split; apply Hclear.
  - unfold SVMWalletConnectorActions.disconnectWallet.
    destruct (SVMWalletConnectorActions.getPhantomWallet W A) as [phantom|];
      [destruct (phantom_disconnect A) as [[]|e]|];
      unfold_ui; cbn; unfold Index.handleSetTokenBalances; rewrite app_nil_r;
      destruct st; repeat split; apply Hclear.
Qed.

(** A fetch started by a function of the first render, whose flag is
    [false], is never dropped. *)
Lemma fetch_run_of_first_render (c : Index.Connector) (W : World) (account : string) :
  exists tr,
    fetchTokenBalancesOf c W false account = (tr, Returns tt) /\
    toasts tr = [] /\
    flagWrites tr = [true; false] /\
    exists tokens, reported tr = [tokens].
Proof.
  destruct (fetch_run c W false account) as (tr & Hrun & Htoast & _ & Hrep & _).
  destruct (fetch_shape c W account) as (_ & _ & Hflag).
  rewrite Hrun in Hflag. exists tr. repeat split; auto.
Qed.

Ltac fold_after :=
  match goal with
  | |- context [fold_left Connection.step (map Core ?t) ?s] =>
      change (fold_left Connection.step (map Core t) s)
        with (Connection.after (map Core t) s)
  end.

Ltac check_left_as_it_was st :=
  unfold_ui; cbn; destruct st; cbn in *;
  split; [reflexivity|]; split; [reflexivity|];
  repeat split; try reflexivity; try (intros H; intuition discriminate).

Ltac check_rejected st before :=
  unfold_ui; cbn; destruct st; cbn in *;
  split; [reflexivity|]; split; [reflexivity|];
  split; [eexists before, _; reflexivity | split; reflexivity].

Ltac check_restored Htoast Hflag Hrep :=
  split; [reflexivity|];
  fold_after;
  rewrite after_fetch_events, coreTrace_lift;
  match goal with
  | |- context [filter isToast ?t] => change (filter isToast t) with (toasts t)
  end;
  rewrite Htoast, Hflag; cbn;
  split; [reflexivity | split; [reflexivity | exact Hrep]].

(** X21: the connection check that the mount effect of a connector
    starts never throws and never notifies.  When the extension
    answers with an account (the first of [eth_accounts]; the key of a
    connected Phantom; the address of a connected Petra), the connector
    ends connected with exactly that account, and the balance fetch,
    started by the first render, is not dropped: it reports once to the
    page and leaves the flag cleared.  When a request of the check is
    rejected, the rejection is logged with [console.error] and that is
    all: the state is left as it was and nothing is reported.  In every
    other case the state is left as it was, nothing is reported and
    nothing is logged as a failure. *)
Theorem checkConnectionStatus_is_silent
    (c : Index.Connector) (W : World) (A : UiAnswers) (st : Connection.State) :
  let run := checkConnectionStatusOf c W A in
  uresult run = Returns tt /\
  toasts (coreTrace (utrace run)) = [] /\
  match checkAnswerOf c W A with
  | Restored account =>
      Connection.after (utrace run) st
      = {| Connection.isConnected := true;
           Connection.address := Some account;
           Connection.isInstalled := Connection.isInstalled st;
           Connection.fetchingBalances := false |} /\
      exists tokens, reported (coreTrace (utrace run)) = [tokens]
  | CheckRejected e =>
      (exists before request,
         utrace run
         = (before ++ [Core (Rejected request e); Core (checkLogOf c)])%list) /\
      Connection.after (utrace run) st = st /\
      reported (coreTrace (utrace run)) = []
  | NothingToRestore =>
      Connection.after (utrace run) st = st /\
      reported (coreTrace (utrace run)) = [] /\
      ~ In (Core (checkLogOf c)) (utrace run)
  end.
Proof.
  cbv zeta. destruct c; cbn [checkConnectionStatusOf checkAnswerOf checkLogOf].
  - unfold MVMWalletConnectorActions.checkAtMount,
      MVMWalletConnectorActions.checkConnectionStatus,
      MVMWalletConnectorActions.fetchTokenBalances.
    destruct (window_petra W) as [petra|]; [|check_left_as_it_was st].
    destruct (petra_isConnected petra) as [[|]|e];
      [|check_left_as_it_was st|check_rejected st [Core (Called Petra_isConnected)]].
    destruct (petra_account petra) as [account|e];
      [|check_rejected st [Core (Called Petra_isConnected); Core (Called Petra_account)]].
    destruct (String.eqb_spec account "") as [->|Hempty]; [check_left_as_it_was st|].
    apply String.eqb_neq in Hempty.
    destruct (fetch_run_of_first_render Index.MVM W account)
      as (tr & Hrun & Htoast & Hflag & Hrep).
    cbn [fetchTokenBalancesOf] in Hrun.
    unfold_ui; cbn. rewrite Hempty. cbn. rewrite Hrun. cbn.
    check_restored Htoast Hflag Hrep.
  - unfold EVMWalletConnectorActions.checkAtMount,
      EVMWalletConnectorActions.checkConnectionStatus,
      EVMWalletConnectorActions.fetchTokenBalances.
    destruct (window_ethereum W) as [ethereum|]; [|check_left_as_it_was st].
    destruct (eth_accounts A) as [[|account accounts]|e];
      [check_left_as_it_was st| |
       check_rejected st [Core (Called (Ethereum_request "eth_accounts"))]].
    destruct (fetch_run_of_first_render Index.EVM W account)
      as (tr & Hrun & Htoast & Hflag & Hrep).
    cbn [fetchTokenBalancesOf] in Hrun.
    unfold_ui; cbn. rewrite Hrun. cbn.
    check_restored Htoast Hflag Hrep.
  - unfold SVMWalletConnectorActions.checkAtMount.
    destruct (SVMWalletConnectorActions.getPhantomWallet W A) as [phantom|];
      [|check_left_as_it_was st].
    unfold SVMWalletConnectorActions.checkConnectionStatus,
      SVMWalletConnectorActions.fetchTokenBalances.
    destruct (sol_isConnected phantom); [|check_left_as_it_was st].
    destruct (sol_publicKey phantom =? "")%string eqn:Hkey; [check_left_as_it_was st|].
    destruct (fetch_run_of_first_render Index.SVM W (sol_publicKey phantom))
      as (tr & Hrun & Htoast & Hflag & Hrep).
    cbn [fetchTokenBalancesOf] in Hrun.
    unfold_ui; cbn. rewrite Hrun. cbn.
    check_restored Htoast Hflag Hrep.
Qed.

(** X22: a change to a new account never touches the connection flag
    and is never dropped.  The listener of each connector, registered
    once by the mount effect, sets the address to the new account and
    leaves [isConnected] as it was: a connector that was disconnected
    stays so.  As the listener is a function of the first render, it
    never sees the in-flight flag set: whatever the state of the
    component, a fetch in flight included, it fetches the balances of
    the new account without any notification, reports once to the page
    and leaves the flag cleared. *)
Theorem account_change_keeps_the_connection_flag
    (c : Index.Connector) (W : World) (st : Connection.State)
    (account : string) (others : list string) :
  account <> "" ->
  let run := accountChangedOf c W account others in
  uresult run = Returns tt /\
  Connection.after (utrace run) st
  = {| Connection.isConnected := Connection.isConnected st;
       Connection.address := Some account;
       Connection.isInstalled := Connection.isInstalled st;
       Connection.fetchingBalances := false |} /\
  toasts (coreTrace (utrace run)) = [] /\
  flagWrites (coreTrace (utrace run)) = [true; false] /\
  exists tokens, reported (coreTrace (utrace run)) = [tokens].
Proof.
  intros Hne. apply String.eqb_neq in Hne. cbv zeta.
  destruct (fetch_run_of_first_render c W account)
    as (tr & Hrun & Htoast & Hflag & Hrep).
  destruct c; cbn [accountChangedOf fetchTokenBalancesOf] in *;
    unfold MVMWalletConnectorActions.accountChangeListener,
      MVMWalletConnectorActions.onAccountChange,
      MVMWalletConnectorActions.fetchTokenBalances,
      EVMWalletConnectorActions.accountsChangedListener,
      EVMWalletConnectorActions.handleAccountsChanged,
      EVMWalletConnectorActions.fetchTokenBalances,
      SVMWalletConnectorActions.accountChangedListener,
      SVMWalletConnectorActions.handleAccountChanged,
      SVMWalletConnectorActions.fetchTokenBalances;
    rewrite ?Hne; unfold_ui; cbn; rewrite Hrun; cbn;
    (split; [reflexivity|]);
    fold_after;
    rewrite after_fetch_events, coreTrace_lift, Hflag; cbn;
    (split; [reflexivity|]);
    (split; [exact Htoast | split; [reflexivity | exact Hrep]]).
Qed.

Lemma account_change_keeps_the_connection_flag_witness :
  let st := {| Connection.isConnected := false; Connection.address := None;
               Connection.isInstalled := true; Connection.fetchingBalances := true |} in
  let run := accountChangedOf Index.SVM Scenario.online
               (sol_publicKey Scenario.phantom) [] in
  uresult run = Returns tt /\
  Connection.after (utrace run) st
  = {| Connection.isConnected := false;
       Connection.address := Some (sol_publicKey Scenario.phantom);
       Connection.isInstalled := true;
       Connection.fetchingBalances := false |} /\
  toasts (coreTrace (utrace run)) = [] /\
  flagWrites (coreTrace (utrace run)) = [true; false] /\
  exists tokens, reported (coreTrace (utrace run)) = [tokens].
Proof.
  apply (account_change_keeps_the_connection_flag Index.SVM Scenario.online
           {| Connection.isConnected := false; Connection.address := None;
              Connection.isInstalled := true; Connection.fetchingBalances := true |}
           (sol_publicKey Scenario.phantom) []).
  discriminate.
Defined.

(** X23: the in-flight flag drops, it does not queue.  A connect that
    is clicked in a render whose flag is set goes through: the
    connector ends connected as the account of the extension, with the
    notification "Connected".  But the fetch that follows is dropped:
    the flag is not written, nothing is reported to the page, and the
    list of the page is left as it was. *)
Theorem fetch_in_flight_leaves_the_page_stale
    (c : Index.Connector) (W : World) (A : UiAnswers) (st : Connection.State)
    (account : string) (prev : list Token) :
  Connection.fetchingBalances st = true ->
  Connection.isInstalled st = true ->
  connectedAccount c W A = Some account ->
  let run := connectWalletOf c W A st in
  Connection.after (utrace run) st = connectedAs account st /\
  toasts (coreTrace (utrace run)) = [connectedToastOf c] /\
  flagWrites (coreTrace (utrace run)) = [] /\
  reported (coreTrace (utrace run)) = [] /\
  Index.deliver c (coreTrace (utrace run)) prev = prev.
Proof.
  intros Hflight Hinst Hacc. cbv zeta.
  destruct c; cbn [connectWalletOf connectedAccount connectedToastOf] in *.
  - unfold MVMWalletConnectorActions.connectWallet,
      MVMWalletConnectorActions.fetchTokenBalances.
    rewrite Hinst, Hflight. cbn [negb].
    destruct (window_petra W) as [petra|]; [|discriminate Hacc].
    destruct (petra_connect petra) as [[]|e]; [|discriminate Hacc].
    destruct (petra_account petra) as [a|e]; [|discriminate Hacc].
    destruct (a =? "")%string eqn:Ha; [discriminate Hacc|].
    injection Hacc as ->. unfold_ui; cbn. rewrite Ha. cbn.
    destruct st; cbn in *. subst. repeat split.
  - unfold EVMWalletConnectorActions.connectWallet,
      EVMWalletConnectorActions.fetchTokenBalances.
    rewrite Hinst, Hflight. cbn [negb].
    destruct (window_ethereum W) as [ethereum|]; [|discriminate Hacc].
    destruct (eth_requestAccounts A) as [[|a rest]|e]; try discriminate Hacc.
    injection Hacc as ->. unfold_ui; cbn.
    destruct st; cbn in *. subst. repeat split.
  - unfold SVMWalletConnectorActions.connectWallet,
      SVMWalletConnectorActions.fetchTokenBalances.
    rewrite Hinst, Hflight. cbn [negb].
    destruct (SVMWalletConnectorActions.getPhantomWallet W A) as [phantom|];
      [|discriminate Hacc].
    destruct (sol_connect phantom) as [[]|e]; [|discriminate Hacc].
    injection Hacc as <-. unfold_ui; cbn.
    destruct st; cbn in *. subst. repeat split.
Qed.

Lemma fetch_in_flight_leaves_the_page_stale_witness :
  let st := {| Connection.isConnected := false; Connection.address := None;
               Connection.isInstalled := true; Connection.fetchingBalances := true |} in
  let A := {| eth_accounts := Returns []; eth_requestAccounts := Returns [Scenario.alice];
              solana_isPhantom := true; phantom_disconnect := Returns tt;
              petra_disconnect := Returns tt |} in
  let run := connectWalletOf Index.EVM Scenario.online A st in
  Connection.after (utrace run) st = connectedAs Scenario.alice st /\
  toasts (coreTrace (utrace run)) = [connectedToastOf Index.EVM] /\
  flagWrites (coreTrace (utrace run)) = [] /\
  reported (coreTrace (utrace run)) = [] /\
  Index.deliver Index.EVM (coreTrace (utrace run)) [Scenario.celo] = [Scenario.celo].
Proof.
  cbv zeta.
  apply (fetch_in_flight_leaves_the_page_stale Index.EVM Scenario.online
           {| eth_accounts := Returns []; eth_requestAccounts := Returns [Scenario.alice];
              solana_isPhantom := true; phantom_disconnect := Returns tt;
              petra_disconnect := Returns tt |}
           {| Connection.isConnected := false; Connection.address := None;
              Connection.isInstalled := true; Connection.fetchingBalances := true |}
           Scenario.alice [Scenario.celo]); reflexivity.
Defined.
